(** * dagger doc: a shallow embedding of cmd/dagger/cmd/doc.go

    The development follows the source file top-down: Go strings and the
    few functions of the Go standard library the file calls ([strings],
    [unicode/utf8], [encoding/json]), the formatting helpers ([mdEscape],
    [terminalTrim], [formatLabel]), the three table printers and the driver
    [PrintDoc].  The theorems come after the definitions; only the three
    length lemmas that the truncation loop needs to be accepted as
    terminating stand next to it.

    Go's [int] is 64 bits wide.  The only integer arithmetic of the file
    is [len(msg)-4] and [size/2] on a terminal width, both far from the
    bounds, so integers are [Z] without wrap-around; [/] truncates
    towards zero ([Z.quot]). *)

From Stdlib Require Import String Ascii List ZArith NArith Bool Lia.
From Equations Require Import Equations.
From Equations.Prop Require Import Logic.
Import ListNotations.

Local Open Scope string_scope.
Local Open Scope list_scope.

(** ** Go strings

    A Go [string] is an immutable sequence of bytes; so is a Rocq [string]
    (a list of 8-bit [ascii]).  [len s] is [String.length s] and the slice
    expression [s[0:n]] is [substring 0 n s] when it is in range. *)

Module GoString.

Definition nl : string := String (ascii_of_nat 10) "".
Definition tab : string := String (ascii_of_nat 9) "".

Definition byte (c : ascii) : N := N_of_ascii c.

Definition len (s : string) : nat := String.length s.

Definition concat (l : list string) : string :=
  fold_right append "" l.

(** [strings.HasPrefix] and [strings.TrimPrefix]. *)
Definition HasPrefix (s p : string) : bool := prefix p s.

Definition TrimPrefix (s p : string) : string :=
  if HasPrefix s p then substring (len p) (len s - len p) s else s.

(** [strings.ReplaceAll s old new] for a non-empty [old]: the
    non-overlapping occurrences of [old] are replaced from the left.
    [skip] counts the bytes of a matched occurrence still to be dropped. *)
Fixpoint replaceFrom (skip : nat) (old new s : string) : string :=
  match s with
  | EmptyString => EmptyString
  | String c s' =>
      match skip with
      | S k => replaceFrom k old new s'
      | O =>
          if prefix old s
          then new ++ replaceFrom (len old - 1) old new s'
          else String c (replaceFrom 0 old new s')
      end
  end.

Definition ReplaceAll (s old new : string) : string :=
  replaceFrom 0 old new s.

End GoString.

(** ** unicode/utf8

    [RuneCountInString] as the Go library computes it: a byte below
    0x80 is one rune; a leading byte opens a sequence of 2, 3 or 4 bytes
    when the bytes that follow are there and in the accepted ranges; every
    other byte counts as one rune (of width 1) on its own. *)

Module utf8.
Import GoString.

Local Open Scope N_scope.

Definition RuneSelf : N := 128.
Definition locb : N := 128.
Definition hicb : N := 191.

(** The table [first] with [acceptRanges] folded in: for a leading byte,
    the width of the sequence and the range accepted for its second
    byte; [None] is the table's [xx] (and is never consulted for
    ASCII). *)
Definition first (c : N) : option (nat * N * N) :=
  if c <? 194 then None
  else if c <? 224 then Some (2%nat, locb, hicb)
  else if c =? 224 then Some (3%nat, 160, hicb)
  else if c <? 237 then Some (3%nat, locb, hicb)
  else if c =? 237 then Some (3%nat, locb, 159)
  else if c <? 240 then Some (3%nat, locb, hicb)
  else if c =? 240 then Some (4%nat, 144, hicb)
  else if c <? 244 then Some (4%nat, locb, hicb)
  else if c =? 244 then Some (4%nat, locb, 143)
  else None.

Definition at_ (s : string) (i : nat) : N :=
  match get i s with Some c => byte c | None => 0 end.

(** The number of bytes one turn of the counting loop advances by, when
    the rest of the string is [s]. *)
Definition runeWidth (s : string) : nat :=
  match s with
  | EmptyString => 0%nat
  | String c0 _ =>
      let c := byte c0 in
      if c <? RuneSelf then 1%nat
      else match first c with
           | None => 1%nat
           | Some (size, lo, hi) =>
               if (len s <? size)%nat then 1%nat
               else if (at_ s 1 <? lo) || (hi <? at_ s 1) then 1%nat
               else if (size =? 2)%nat then 2%nat
               else if (at_ s 2 <? locb) || (hicb <? at_ s 2) then 1%nat
               else if (size =? 3)%nat then 3%nat
               else if (at_ s 3 <? locb) || (hicb <? at_ s 3) then 1%nat
               else 4%nat
           end
  end.

(** The loop [for i := 0; i < ns; n++]; [skip] is the number of bytes of
    the current rune still to be stepped over. *)
Fixpoint countFrom (skip : nat) (s : string) : nat :=
  match s with
  | EmptyString => 0%nat
  | String _ s' =>
      match skip with
      | S k => countFrom k s'
      | O => S (countFrom (runeWidth s - 1) s')
      end
  end.

Definition RuneCountInString (s : string) : Z :=
  Z.of_nat (countFrom 0 s).

(** The runes of a string, each as the bytes it occupies. *)
Fixpoint runesFrom (skip : nat) (cur : string) (s : string) : list string :=
  match s with
  | EmptyString => match cur with EmptyString => [] | _ => [cur] end
  | String c s' =>
      match skip with
      | S k => runesFrom k (cur ++ String c "") s'
      | O =>
          match cur with
          | EmptyString => runesFrom (runeWidth s - 1) (String c "") s'
          | _ => cur :: runesFrom (runeWidth s - 1) (String c "") s'
          end
      end
  end.

Definition runes (s : string) : list string := runesFrom 0 "" s.

(** [ValidString]: no rune of the string is a stray byte (a rune of
    width one that is not ASCII). *)
Definition validRune (r : string) : bool :=
  (1 <? len r)%nat || (at_ r 0 <? RuneSelf).

Definition ValidString (s : string) : bool := forallb validRune (runes s).

(** Every byte of the string is below [RuneSelf]. *)
Fixpoint isASCII (s : string) : bool :=
  match s with
  | EmptyString => true
  | String c s' => (byte c <? RuneSelf) && isASCII s'
  end.

(** The first [k] runes of a string. *)
Definition runePrefix (k : nat) (s : string) : string :=
  concat (firstn k (runes s)).

End utf8.

(** ** Results and effects

    A call either returns, or ends the process: [lg.Fatal()] logs one entry
    and exits, a run-time panic (an out-of-range slice) aborts. *)

Definition error := string.

Inductive Res (A : Type) : Type :=
| Ok (a : A)
| Fatal (msg : string) (err : error)
| Panic (msg : string).

Arguments Ok {A} a.
Arguments Fatal {A} msg err.
Arguments Panic {A} msg.

(** The slice expression [s[0:hi]] on a string: out of range when [hi] is
    negative or beyond [len s]. *)
Definition sliceTo (s : string) (hi : Z) : Res string :=
  if ((hi <? 0) || (Z.of_nat (GoString.len s) <? hi))%Z
  then Panic "slice bounds out of range"
  else Ok (substring 0 (Z.to_nat hi) s).

(** Byte lengths of slices and concatenations: the measure of the loop of
    [terminalTrim] below. *)

Lemma substring_len (s : string) (n : nat) :
  n <= GoString.len s -> GoString.len (substring 0 n s) = n.
Proof.
  unfold GoString.len. revert n.
  induction s as [|c s IH]; intros [|n] H; simpl in *; try lia.
  rewrite IH; lia.
Qed.

Lemma append_len (s t : string) :
  GoString.len (s ++ t) = GoString.len s + GoString.len t.
Proof.
  unfold GoString.len. induction s as [|c s IH]; simpl; congruence.
Qed.

Lemma sliceTo_len (s p : string) (hi : Z) :
  sliceTo s hi = Ok p -> Z.of_nat (GoString.len p) = hi.
Proof.
  unfold sliceTo.
  destruct ((hi <? 0) || (Z.of_nat (GoString.len s) <? hi))%Z eqn:E;
    [discriminate|].
  apply orb_false_iff in E. destruct E as [E1 E2].
  apply Z.ltb_ge in E1, E2.
  intros H. injection H as <-.
  rewrite substring_len; lia.
Qed.

(** ** Formatting helpers (doc.go, lines 93-119) *)

Definition textFormat : string := "txt".
Definition markdownFormat : string := "md".
Definition jsonFormat : string := "json".
Definition textPadding : string := "    ".

Definition ellipsis : string := "…".

Definition mdEscape (s : string) : string :=
  let escape := ["|"; "<"; ">"] in
  fold_left (fun s c => GoString.ReplaceAll s c ("\" ++ c)) escape s.

(** The loop of [terminalTrim]: each turn cuts four bytes off the end and
    appends the three bytes of the ellipsis, so the byte length goes down
    by one. *)
Equations? trimLoop (size : Z) (msg : string) : Res string
  by wf (GoString.len msg) lt :=
  trimLoop size msg with inspect (utf8.RuneCountInString msg >? size)%Z => {
    | exist _ false _ => Ok msg
    | exist _ true _
        with inspect (sliceTo msg (Z.of_nat (GoString.len msg) - 4)) => {
        | exist _ (Ok p) e => trimLoop size (p ++ ellipsis)
        | exist _ (Fatal m err) _ => Fatal m err
        | exist _ (Panic m) _ => Panic m } }.
Proof.
  apply sliceTo_len in e.
  rewrite append_len. change (GoString.len ellipsis) with 3. lia.
Qed.

(** A run writes to standard output as it goes; what was written before a
    fatal exit or a panic stays written.  [Stdout s] is text printed
    directly ([fmt.Printf], [fmt.Println]); [Tabwriter s] is the text [s]
    handed to a [tabwriter.NewWriter(os.Stdout, 0, 4, 4, ' ', 0)] and
    released by its [Flush]; [StdoutJSON j] is the indented encoding of [j]
    followed by a newline.  A tabwriter that is filled and never flushed,
    because the run is aborted first, has still put on standard output
    what it released by itself: see [tabwriter.released] below. *)

#[local] Unset Elimination Schemes.
Inductive JSON : Type :=
| JNull
| JString (s : string)
| JArray (l : list JSON)
| JObject (members : list (string * JSON)).
#[local] Set Elimination Schemes.

Inductive Out : Type :=
| Stdout (s : string)
| Tabwriter (s : string)
| StdoutJSON (j : JSON).

Definition M (A : Type) : Type := (list Out * Res A)%type.

Definition ret {A} (a : A) : M A := ([], Ok a).

Definition bind {A B} (m : M A) (k : A -> M B) : M B :=
  match m with
  | (o, Ok a) => let (o', r) := k a in (o ++ o', r)
  | (o, Fatal msg err) => (o, Fatal msg err)
  | (o, Panic msg) => (o, Panic msg)
  end.

Definition print (s : string) : M unit := ([Stdout s], Ok tt).
Definition flush (w : string) : M unit := ([Tabwriter w], Ok tt).
Definition printJSON (j : JSON) : M unit := ([StdoutJSON j], Ok tt).
Definition fatal {A} (msg : string) (err : error) : M A := ([], Fatal msg err).
Definition lift {A} (r : Res A) : M A := ([], r).

Declare Scope go_scope.
Delimit Scope go_scope with go.
Notation "x <- m ;; k" := (bind m (fun x => k))
  (at level 61, m at next level, right associativity) : go_scope.
Notation "m ;; k" := (bind m (fun _ => k))
  (at level 61, right associativity) : go_scope.

(** [for _, x := range l { s = body x s }] with effects. *)
Fixpoint forRange {A S : Type} (l : list A) (body : A -> S -> M S) (s : S)
  : M S :=
  match l with
  | [] => ret s
  | x :: l' => bind (body x s) (forRange l' body)
  end.

(** ** Go slices: [nil] and the empty slice differ (and encode
    differently as JSON). *)

Inductive slice (A : Type) : Type :=
| nilSlice
| Slice (elems : list A).

Arguments nilSlice {A}.
Arguments Slice {A} elems.

Definition elements {A} (s : slice A) : list A :=
  match s with nilSlice => [] | Slice l => l end.

Definition append1 {A} (s : slice A) (x : A) : slice A :=
  Slice (elements s ++ [x]).

(** ** Types used for json generation (doc.go, lines 34-51) *)

Module ValueJSON.
Record t : Type := mk { Name : string; Type_ : string; Description : string }.
Definition zero : t := mk "" "" "".
End ValueJSON.

Module FieldJSON.
Record t : Type := mk {
  Name : string;
  Description : string;
  Inputs : slice ValueJSON.t;
  Outputs : slice ValueJSON.t }.
Definition zero : t := mk "" "" nilSlice nilSlice.
Definition setName (f : t) (x : string) : t :=
  mk x (Description f) (Inputs f) (Outputs f).
Definition setDescription (f : t) (x : string) : t :=
  mk (Name f) x (Inputs f) (Outputs f).
Definition setInputs (f : t) (x : slice ValueJSON.t) : t :=
  mk (Name f) (Description f) x (Outputs f).
Definition setOutputs (f : t) (x : slice ValueJSON.t) : t :=
  mk (Name f) (Description f) (Inputs f) x.
End FieldJSON.

Module PackageJSON.
Record t : Type := mk {
  Name : string;
  Description : string;
  Fields : slice FieldJSON.t }.
Definition zero : t := mk "" "" nilSlice.
Definition setName (p : t) (x : string) : t :=
  mk x (Description p) (Fields p).
Definition setDescription (p : t) (x : string) : t :=
  mk (Name p) x (Fields p).
Definition setFields (p : t) (x : slice FieldJSON.t) : t :=
  mk (Name p) (Description p) x.
End PackageJSON.

(** ** encoding/json on these types

    A struct encodes as an object with its exported fields in declaration
    order, a string as a string, a [nil] slice as [null] and any other
    slice as an array.  Structs of strings and slices never fail to
    encode, so the error is always [nil]. *)

Module json.

Definition encodeSlice {A} (enc : A -> JSON) (s : slice A) : JSON :=
  match s with
  | nilSlice => JNull
  | Slice l => JArray (map enc l)
  end.

Definition encodeValue (v : ValueJSON.t) : JSON :=
  JObject [("Name", JString (ValueJSON.Name v));
           ("Type", JString (ValueJSON.Type_ v));
           ("Description", JString (ValueJSON.Description v))].

Definition encodeField (f : FieldJSON.t) : JSON :=
  JObject [("Name", JString (FieldJSON.Name f));
           ("Description", JString (FieldJSON.Description f));
           ("Inputs", encodeSlice encodeValue (FieldJSON.Inputs f));
           ("Outputs", encodeSlice encodeValue (FieldJSON.Outputs f))].

Definition encodePackage (p : PackageJSON.t) : JSON :=
  JObject [("Name", JString (PackageJSON.Name p));
           ("Description", JString (PackageJSON.Description p));
           ("Fields", encodeSlice encodeField (PackageJSON.Fields p))].

Definition MarshalIndent (p : PackageJSON.t) : JSON * option error :=
  (encodePackage p, None).

End json.

(** ** text/tabwriter: what a writer releases before it is flushed

    The writer splits the bytes it is handed into cells, ended by a tab
    or a vertical tab, and lines, ended by a newline or a form feed.  It
    holds the text back until [Flush], with two exceptions: a form feed,
    and a newline that ends a line of one cell only, make it lay out and
    write everything it holds at once.  Text between two [Escape] bytes
    (0xFF) is passed over: no tab or line break is seen in it.

    [releasedFrom] walks the text with the writer's state: whether an
    escape is open, the number of cells ended on the current line, the
    text released so far and the text still held. *)

Module tabwriter.

Local Open Scope N_scope.

Definition Escape : N := 255.

Fixpoint releasedFrom (escaped : bool) (ncells : nat)
    (done held : string) (s : string) : string :=
  match s with
  | EmptyString => done
  | String c s' =>
      let ch := GoString.byte c in
      let held := (held ++ String c "")%string in
      if escaped then
        (* inside escape *)
        releasedFrom (negb (ch =? Escape)) ncells done held s'
      else if (ch =? 9) || (ch =? 11) then
        (* '\t', '\v': end of cell *)
        releasedFrom false (S ncells) done held s'
      else if ch =? 10 then
        (* '\n': end of cell, end of line; the line has ncells + 1 cells *)
        if (ncells =? 0)%nat
        then releasedFrom false 0 (done ++ held)%string "" s'
        else releasedFrom false 0 done held s'
      else if ch =? 12 then
        (* '\f' always forces a flush *)
        releasedFrom false 0 (done ++ held)%string "" s'
      else if ch =? Escape then
        (* start of escaped sequence *)
        releasedFrom true ncells done held s'
      else
        releasedFrom false ncells done held s'
  end.

(** The beginning of [s] that a fresh writer handed [s] has written by
    the time it holds the rest. *)
Definition released (s : string) : string := releasedFrom false 0 "" "" s.

End tabwriter.

(** A call made while a tabwriter holding [w] is being filled.  If the call
    does not return, the writer is never flushed, and standard output has
    only what the writer released by itself (nothing, when that is
    empty). *)
Definition abandoning {A : Type} (w : string) (m : M A) : M A :=
  match m with
  | (o, Ok a) => (o, Ok a)
  | (o, r) =>
      (o ++ match tabwriter.released w with
            | EmptyString => []
            | s => [Tabwriter s]
            end, r)
  end.

(** ** The collaborators of doc.go

    The compiled value tree ([compiler.Value], [cue]), the value describer
    ([common]), the input/output classifier ([environment]) and the
    terminal ([term]) are outside this file; the code only calls them.
    A Go pair [(x, err)] is a pair whose second component is [None] for a
    [nil] error.  The logging context passed to the classifier plays no
    part in what is rendered and is left out. *)

Record Field (Value : Type) : Type := mkField {
  IsDefinition : bool;   (* field.Selector.IsDefinition() *)
  Label : string;        (* field.Label() *)
  FieldValue : Value     (* field.Value *)
}.

Arguments mkField {Value}.
Arguments IsDefinition {Value}.
Arguments Label {Value}.
Arguments FieldValue {Value}.

Class Env (Value : Type) : Type := {
  Path : Value -> string;                                (* val.Path().String() *)
  IncompleteKind : Value -> Z;                           (* v.Cue().IncompleteKind() *)
  StructKind : Z;                                        (* cue.StructKind *)
  Fields : Value -> list (Field Value) * option error;   (* val.Fields(cue.Definitions(true)) *)
  ValueDocString : Value -> string;                      (* common.ValueDocString *)
  FormatValue : Value -> string;                         (* common.FormatValue *)
  ScanInputs : Value -> list Value;                      (* environment.ScanInputs *)
  ScanOutputs : Value -> list Value;                     (* environment.ScanOutputs *)
  GetSize : Z -> Z * Z * option error                    (* term.GetSize *)
}.

Section Doc.

Context {Value : Type} `{E : Env Value}.

Import GoString.
Local Open Scope go_scope.
Local Open Scope string_scope.

Definition terminalTrim (msg : string) : Res string :=
  (* If we're not running on a terminal, return the whole string *)
  let '(size, _, err) := GetSize 1 in
  match err with
  | Some _ => Ok msg
  | None =>
      (* Otherwise, trim to fit half the terminal *)
      let size := Z.quot size 2 in
      trimLoop size msg
  end.

Definition formatLabel (name : string) (val : Value) : string :=
  let label := Path val in
  TrimPrefix label (name ++ ".").

(** printValuesText (text) formats an array of Values on stdout.  One
    turn of its loop trims the description and hands the row to the
    tabwriter [w]; [terminalTrim] is called while [w] holds the rows of
    the turns before. *)
Definition textRowStep (libName : string) (i : Value) (w : string)
  : M string :=
  docStr <- abandoning w (lift (terminalTrim (ValueDocString i))) ;;
  ret (w ++ tab ++ tab ++ formatLabel libName i ++ tab
         ++ FormatValue i ++ tab ++ docStr ++ nl).

Definition printValuesText (libName : string) (values : list Value)
  : M unit :=
  let w := "" in
  print (nl ++ textPadding ++ "Inputs:" ++ nl) ;;
  w <- forRange values (textRowStep libName) w ;;
  flush w.

(** printValuesMarkdown (markdown) formats an array of Values on stdout *)
Definition mdRow (libName : string) (i : Value) : string :=
  "|*" ++ formatLabel libName i ++ "*" ++ tab
    ++ "|``" ++ mdEscape (FormatValue i) ++ "``" ++ tab
    ++ "|" ++ mdEscape (ValueDocString i) ++ tab ++ "|" ++ nl.

Definition printValuesMarkdown (libName : string) (values : list Value)
  : M unit :=
  let w := "" in
  let w := w ++ "| Name" ++ tab ++ "| Type" ++ tab
             ++ "| Description    " ++ tab ++ "|" ++ nl in
  let w := w ++ "| -------------" ++ tab ++ "|:-------------:" ++ tab
             ++ "|:-------------:" ++ tab ++ "|" ++ nl in
  let w := fold_left (fun w i => w ++ mdRow libName i) values w in
  let w := w ++ nl in
  flush w.

(** printValuesJson fills a struct for json output *)
Definition valuesToJSON (libName : string) (values : list Value)
  : slice ValueJSON.t :=
  let val := Slice [] in
  fold_left (fun val i =>
               let v := ValueJSON.zero in
               let v := ValueJSON.mk (formatLabel libName i)
                                     (ValueJSON.Type_ v)
                                     (ValueJSON.Description v) in
               let v := ValueJSON.mk (ValueJSON.Name v)
                                     (FormatValue i)
                                     (ValueJSON.Description v) in
               let v := ValueJSON.mk (ValueJSON.Name v)
                                     (ValueJSON.Type_ v)
                                     (ValueDocString i) in
               append1 val v) values val.

(** The body of the loop over the package fields (lines 207-280), one
    definition per [switch format] statement.  The package document is
    the only variable that lives across turns; [fieldJSON] is local to a
    turn. *)

(** Field Name + Description (lines 222-238). *)
Definition renderHeading (val : Value) (format : string) (name : string)
    (v : Value) (fieldJSON : FieldJSON.t) : M FieldJSON.t :=
  let comment := ValueDocString v in
  if format =? textFormat then
    print (nl ++ name ++ nl ++ nl ++ textPadding ++ comment ++ nl) ;;
    ret fieldJSON
  else if format =? markdownFormat then
    print ("### " ++ name ++ nl ++ nl) ;;
    (if negb (comment =? "-")
     then print (mdEscape comment ++ nl ++ nl)
     else ret tt) ;;
    ret fieldJSON
  else if format =? jsonFormat then
    let fieldJSON := FieldJSON.setName fieldJSON name in
    let comment := ValueDocString val in
    if negb (comment =? "")
    then ret (FieldJSON.setDescription fieldJSON comment)
    else ret fieldJSON
  else ret fieldJSON.

(** Inputs (lines 240-258). *)
Definition renderInputs (format : string) (name : string) (v : Value)
    (fieldJSON : FieldJSON.t) : M FieldJSON.t :=
  let inp := ScanInputs v in
  if format =? textFormat then
    (if (List.length inp =? 0)%nat
     then print (nl ++ textPadding ++ "Inputs: none" ++ nl)
     else printValuesText name inp) ;;
    ret fieldJSON
  else if format =? markdownFormat then
    print ("#### " ++ mdEscape name ++ " Inputs" ++ nl ++ nl) ;;
    (if (List.length inp =? 0)%nat
     then print ("_No input._" ++ nl ++ nl)
     else printValuesMarkdown name inp) ;;
    ret fieldJSON
  else if format =? jsonFormat then
    ret (FieldJSON.setInputs fieldJSON (valuesToJSON name inp))
  else ret fieldJSON.

(** Outputs (lines 260-279). *)
Definition renderOutputs (format : string) (name : string) (v : Value)
    (fieldJSON : FieldJSON.t) (packageJSON : PackageJSON.t)
  : M PackageJSON.t :=
  let out := ScanOutputs v in
  if format =? textFormat then
    (if (List.length out =? 0)%nat
     then print (nl ++ textPadding ++ "Outputs: none" ++ nl)
     else printValuesText name out) ;;
    ret packageJSON
  else if format =? markdownFormat then
    print ("#### " ++ mdEscape name ++ " Outputs" ++ nl ++ nl) ;;
    (if (List.length out =? 0)%nat
     then print ("_No output._" ++ nl ++ nl)
     else printValuesMarkdown name out) ;;
    ret packageJSON
  else if format =? jsonFormat then
    let fieldJSON := FieldJSON.setOutputs fieldJSON (valuesToJSON name out) in
    ret (PackageJSON.setFields packageJSON
           (append1 (PackageJSON.Fields packageJSON) fieldJSON))
  else ret packageJSON.

Definition fieldBody (val : Value) (format : string)
    (field : Field Value) (packageJSON : PackageJSON.t)
  : M PackageJSON.t :=
  let fieldJSON := FieldJSON.zero in
  if negb (IsDefinition field) then
    (* not a definition, skipping *)
    ret packageJSON
  else
  let name := Label field in
  let v := FieldValue field in
  if negb (IncompleteKind v =? StructKind)%Z then
    (* not a struct, skipping *)
    ret packageJSON
  else
  fieldJSON <- renderHeading val format name v fieldJSON ;;
  fieldJSON <- renderInputs format name v fieldJSON ;;
  renderOutputs format name v fieldJSON packageJSON.

Definition PrintDoc (packageName : string) (val : Value) (format : string)
  : M unit :=
  let '(fields, err) := Fields val in
  match err with
  | Some err => fatal "cannot get fields" err
  | None =>
      let packageJSON := PackageJSON.zero in
      (* Package Name + Description *)
      packageJSON <-
        (if format =? textFormat then
           print ("Package " ++ packageName ++ nl) ;;
           print (nl ++ ValueDocString val ++ nl) ;;
           ret packageJSON
         else if format =? markdownFormat then
           print ("## Package " ++ mdEscape packageName ++ nl) ;;
           let comment := ValueDocString val in
           if comment =? "-"
           then print nl ;; ret packageJSON
           else print (nl ++ mdEscape comment ++ nl ++ nl) ;;
                ret packageJSON
         else if format =? jsonFormat then
           let packageJSON := PackageJSON.setName packageJSON packageName in
           let comment := ValueDocString val in
           if negb (comment =? "")
           then ret (PackageJSON.setDescription packageJSON comment)
           else ret packageJSON
         else ret packageJSON) ;;
      (* Package Fields *)
      packageJSON <- forRange fields (fieldBody val format) packageJSON ;;
      if format =? jsonFormat then
        let '(data, err) := json.MarshalIndent packageJSON in
        match err with
        | Some err => fatal "json marshal" err
        | None => printJSON data
        end
      else ret tt
  end.

End Doc.

(** ** The field walker and the renderers, as the specification words them

    [discoverFields] keeps the members that are named definitions of struct
    kind, in the order given.  [escapeEach] escapes a string one character
    at a time. *)

Section Walker.

Context {Value : Type} `{E : Env Value}.

Definition qualifies (field : Field Value) : bool :=
  IsDefinition field && (IncompleteKind (FieldValue field) =? StructKind)%Z.

Definition discoverFields (root : list (Field Value)) : list (Field Value) :=
  filter qualifies root.

End Walker.

Definition isSpecial (c : ascii) : bool :=
  (c =? "|")%char || (c =? "<")%char || (c =? ">")%char.

Definition escapeChar (c : ascii) : string :=
  if isSpecial c then String "\" (String c "") else String c "".

Fixpoint escapeEach (s : string) : string :=
  match s with
  | EmptyString => EmptyString
  | String c s' => escapeChar c ++ escapeEach s'
  end.

(** [strings.ReplaceAll] for a one-byte [old], byte by byte. *)
Fixpoint replaceByte (c : ascii) (new : string) (s : string) : string :=
  match s with
  | EmptyString => EmptyString
  | String x s' =>
      ((if (x =? c)%char then new else String x "") ++ replaceByte c new s')%string
  end.

Fixpoint noSpecial (s : string) : bool :=
  match s with
  | EmptyString => true
  | String c s' => negb (isSpecial c) && noSpecial s'
  end.

(** [s] ends with [t]. *)
Definition HasSuffix (s t : string) : bool :=
  (GoString.len t <=? GoString.len s)%nat
  && (substring (GoString.len s - GoString.len t) (GoString.len t) s =? t).

(** ** A small package to run the renderers on

    The root has four members: the struct definitions [#Image] and
    [#Repo], the string definition [#Tag] and the plain struct field
    [config].  The terminal is a parameter of the environment. *)

Module Demo.

Inductive Node : Type :=
| Root | Image | Tag | Config | Repo
| ImageFrom | ImageArgs | RepoURL.

Definition path (n : Node) : string :=
  match n with
  | Root => ""
  | Image => "#Image"
  | Tag => "#Tag"
  | Config => "config"
  | Repo => "#Repo"
  | ImageFrom => "#Image.from"
  | ImageArgs => "#Image.a|b"
  | RepoURL => "#Repo.url"
  end.

Definition doc (n : Node) : string :=
  match n with
  | Root => "Container images"
  | Image => "-"
  | Tag => "A tag"
  | Config => "Settings"
  | Repo => "A repository"
  | ImageFrom => "ab"
  | ImageArgs => "Arguments <for> the build"
  | RepoURL => "-"
  end.

Definition type (n : Node) : string :=
  match n with
  | ImageFrom => "string"
  | ImageArgs => "string | [...string]"
  | RepoURL => "string"
  | Tag => "string"
  | _ => "struct"
  end.

Definition structKind : Z := 256.
Definition stringKind : Z := 16.

Definition kind (n : Node) : Z :=
  match n with
  | Root | Image | Config | Repo => structKind
  | _ => stringKind
  end.

Definition members (n : Node) : list (Field Node) * option error :=
  match n with
  | Root => ([mkField true "#Image" Image;
              mkField true "#Tag" Tag;
              mkField false "config" Config;
              mkField true "#Repo" Repo], None)
  | _ => ([], None)
  end.

Definition inputs (n : Node) : list Node :=
  match n with
  | Image => [ImageFrom; ImageArgs]
  | _ => []
  end.

Definition outputs (n : Node) : list Node :=
  match n with
  | Repo => [RepoURL]
  | _ => []
  end.

Definition env (tty : Z * Z * option error) : Env Node :=
  {| Path := path;
     IncompleteKind := kind;
     StructKind := structKind;
     Fields := members;
     ValueDocString := doc;
     FormatValue := type;
     ScanInputs := inputs;
     ScanOutputs := outputs;
     GetSize := fun _ => tty |}.

Definition noTerminal : Z * Z * option error :=
  (0%Z, 0%Z, Some "inappropriate ioctl for device").

Definition columns (w : Z) : Z * Z * option error := (w, 24%Z, None).

(** Output redirected to a file, and a terminal [w] columns wide. *)
Definition piped : Env Node := env noTerminal.
Definition tty (w : Z) : Env Node := env (columns w).

End Demo.

(** ** The three documents, as the specification words them

    Each renderer is written here as a plain function of the discovered
    fields: a header, then one block per field, each block made of the
    field's name and description, its inputs and its outputs. *)

Section Documents.

Context {Value : Type} `{E : Env Value}.

Import GoString.
Local Open Scope string_scope.

(** JSON: a value summary, a field record, the package record. *)
Definition summary (libName : string) (i : Value) : ValueJSON.t :=
  ValueJSON.mk (formatLabel libName i) (FormatValue i) (ValueDocString i).

Definition summaries (libName : string) (values : list Value)
  : slice ValueJSON.t :=
  Slice (map (summary libName) values).

Definition jsonField (description : string) (f : Field Value)
  : FieldJSON.t :=
  FieldJSON.mk (Label f) description
               (summaries (Label f) (ScanInputs (FieldValue f)))
               (summaries (Label f) (ScanOutputs (FieldValue f))).

Definition jsonDocument (packageName : string) (val : Value)
    (root : list (Field Value)) : PackageJSON.t :=
  PackageJSON.mk packageName (ValueDocString val)
    (match discoverFields root with
     | [] => nilSlice
     | fs => Slice (map (jsonField (ValueDocString val)) fs)
     end).

(** Markdown: a three-column pipe table, or an italic sentence. *)
Definition mdTableHead : string :=
  "| Name" ++ tab ++ "| Type" ++ tab ++ "| Description    " ++ tab ++ "|" ++ nl
  ++ "| -------------" ++ tab ++ "|:-------------:" ++ tab
  ++ "|:-------------:" ++ tab ++ "|" ++ nl.

Definition mdTable (libName : string) (values : list Value) : Out :=
  Tabwriter (mdTableHead ++ concat (map (mdRow libName) values) ++ nl).

Definition mdGroup (title none : string) (name : string)
    (values : list Value) : list Out :=
  Stdout ("#### " ++ mdEscape name ++ " " ++ title ++ nl ++ nl)
  :: match values with
     | [] => [Stdout (none ++ nl ++ nl)]
     | _ => [mdTable name values]
     end.

Definition mdField (f : Field Value) : list Out :=
  let comment := ValueDocString (FieldValue f) in
  (Stdout ("### " ++ Label f ++ nl ++ nl)
   :: (if comment =? "-" then []
       else [Stdout (mdEscape comment ++ nl ++ nl)]))
  ++ mdGroup "Inputs" "_No input._" (Label f) (ScanInputs (FieldValue f))
  ++ mdGroup "Outputs" "_No output._" (Label f) (ScanOutputs (FieldValue f)).

Definition mdHeader (packageName : string) (val : Value) : list Out :=
  [Stdout ("## Package " ++ mdEscape packageName ++ nl);
   (if ValueDocString val =? "-" then Stdout nl
    else Stdout (nl ++ mdEscape (ValueDocString val) ++ nl ++ nl))].

Definition mdDocument (packageName : string) (val : Value)
    (root : list (Field Value)) : list Out :=
  mdHeader packageName val ++ flat_map mdField (discoverFields root).

(** Text: a tab-separated table under a heading, or a "none" line.  The
    heading of a table reads "Inputs:" for outputs as well, as
    [printValuesText] prints it. *)
Definition trimmed (msg : string) : string :=
  match terminalTrim msg with Ok r => r | _ => msg end.

Definition textRow (libName : string) (i : Value) : string :=
  tab ++ tab ++ formatLabel libName i ++ tab ++ FormatValue i ++ tab
  ++ trimmed (ValueDocString i) ++ nl.

Definition textGroup (none : string) (name : string)
    (values : list Value) : list Out :=
  match values with
  | [] => [Stdout (nl ++ textPadding ++ none ++ nl)]
  | _ => [Stdout (nl ++ textPadding ++ "Inputs:" ++ nl);
          Tabwriter (concat (map (textRow name) values))]
  end.

Definition textField (f : Field Value) : list Out :=
  Stdout (nl ++ Label f ++ nl ++ nl ++ textPadding
          ++ ValueDocString (FieldValue f) ++ nl)
  :: textGroup "Inputs: none" (Label f) (ScanInputs (FieldValue f))
  ++ textGroup "Outputs: none" (Label f) (ScanOutputs (FieldValue f)).

Definition textHeader (packageName : string) (val : Value) : list Out :=
  [Stdout ("Package " ++ packageName ++ nl);
   Stdout (nl ++ ValueDocString val ++ nl)].

Definition textDocument (packageName : string) (val : Value)
    (root : list (Field Value)) : list Out :=
  textHeader packageName val ++ flat_map textField (discoverFields root).

(** The terminal on which [terminalTrim] cannot abort: none, or one of
    six columns or more. *)
Definition wideEnough : Prop :=
  snd (GetSize 1) <> None \/ (6 <= fst (fst (GetSize 1)))%Z.

End Documents.

(** ** The command (doc.go, lines 53-83 and 121-132)

    [compiler.Build] is outside this file: it gives a value or an error.
    [Run] receives the value of the [output] flag and the arguments; cobra
    calls it with exactly one argument ([Args: cobra.ExactArgs(1)]).  A
    fatal log entry without an error attached carries the empty string. *)

Section Command.

Context {Value : Type} `{E : Env Value}.

Variable Build : string -> option Value * option error.

Import GoString.
Local Open Scope go_scope.
Local Open Scope string_scope.

Definition loadCode (packageName : string) : option Value * option error :=
  let '(src, err) := Build packageName in
  match err with
  | Some err => (None, Some err)
  | None => (src, None)
  end.

(** [args[0]]. *)
Definition firstArg (args : list string) : Res string :=
  match args with
  | [] => Panic "index out of range"
  | a :: _ => Ok a
  end.

Definition Run (format : string) (args : list string) : M unit :=
  (if negb (format =? textFormat)
      && negb (format =? markdownFormat)
      && negb (format =? jsonFormat)
   then fatal "output must be either `txt`, `md` or `json`" ""
   else ret tt) ;;
  packageName <- lift (firstArg args) ;;
  let '(val, err) := loadCode packageName in
  (match err with
   | Some err => fatal "cannot compile code" err
   | None => ret tt
   end) ;;
  match val with
  | Some val => PrintDoc packageName val format
  | None => lift (Panic "invalid memory address or nil pointer dereference")
  end.

End Command.

(** ** Notions used to state the further properties *)

(** The same collaborators on another terminal. *)
Definition withTerminal {Value : Type} (E : Env Value)
    (tty : Z -> Z * Z * option error) : Env Value :=
  {| Path := @Path Value E;
     IncompleteKind := @IncompleteKind Value E;
     StructKind := @StructKind Value E;
     Fields := @Fields Value E;
     ValueDocString := @ValueDocString Value E;
     FormatValue := @FormatValue Value E;
     ScanInputs := @ScanInputs Value E;
     ScanOutputs := @ScanOutputs Value E;
     GetSize := tty |}.

(** Every [|], [<] and [>] of the string comes right after a backslash. *)
Fixpoint guardedFrom (afterBackslash : bool) (s : string) : bool :=
  match s with
  | EmptyString => true
  | String c s' =>
      (negb (isSpecial c) || afterBackslash)
      && guardedFrom (c =? "\")%char s'
  end.

Definition guarded (s : string) : bool := guardedFrom false s.

(** The number of [|], [<] and [>] in the string. *)
Fixpoint countSpecial (s : string) : nat :=
  match s with
  | EmptyString => 0
  | String c s' => (if isSpecial c then 1 else 0) + countSpecial s'
  end.

(** A run that does not end in a fatal exit. *)
Definition neverFatal {A : Type} (m : M A) : Prop :=
  forall msg err, snd m <> Fatal msg err.

(** One of the three formats the command accepts. *)
Definition knownFormat (format : string) : bool :=
  ((format =? textFormat) || (format =? markdownFormat)
   || (format =? jsonFormat))%string.

(** The demo package behind a compiler that knows only the package
    ["images"], and the demo collaborators when the fields of a value
    cannot be listed. *)
Definition demoBuild (packageName : string)
  : option Demo.Node * option error :=
  if (packageName =? "images")%string then (Some Demo.Root, None)
  else (None, Some "cannot find package").

Definition demoUnlisted : Env Demo.Node :=
  {| Path := Demo.path;
     IncompleteKind := Demo.kind;
     StructKind := Demo.structKind;
     Fields := fun _ => ([], Some "incomplete value");
     ValueDocString := Demo.doc;
     FormatValue := Demo.type;
     ScanInputs := Demo.inputs;
     ScanOutputs := Demo.outputs;
     GetSize := fun _ => Demo.noTerminal |}.


(** The demo collaborators with the two struct definitions listed the
    other way round; and with other descriptions for the two inputs of
    [#Image], the first of which ends in a newline. *)
Definition demoReordered (tty : Z * Z * option error) : Env Demo.Node :=
  {| Path := Demo.path;
     IncompleteKind := Demo.kind;
     StructKind := Demo.structKind;
     Fields := fun n =>
       match n with
       | Demo.Root => ([mkField true "#Repo" Demo.Repo;
                        mkField true "#Image" Demo.Image], None)
       | _ => ([], None)
       end;
     ValueDocString := Demo.doc;
     FormatValue := Demo.type;
     ScanInputs := Demo.inputs;
     ScanOutputs := Demo.outputs;
     GetSize := fun _ => tty |}.


(** * Theorems *)

(** ** Strings and runes *)

(** The ellipsis is U+2026, three bytes in UTF-8. *)
Lemma ellipsis_bytes :
  map GoString.byte (list_ascii_of_string ellipsis) = [226; 128; 166]%N
  /\ utf8.RuneCountInString ellipsis = 1%Z.
Proof. split; reflexivity. Qed.

(** Runes are counted as Go counts them: a well-formed sequence is one
    rune, and so is every byte that belongs to none. *)
Example RuneCountInString_samples :
  utf8.RuneCountInString "abc" = 3%Z
  /\ utf8.RuneCountInString "é" = 1%Z
  /\ utf8.RuneCountInString "日本語" = 3%Z
  /\ utf8.RuneCountInString (String (ascii_of_nat 195) "") = 1%Z
  /\ utf8.RuneCountInString (String (ascii_of_nat 169) "a") = 2%Z
  /\ utf8.runes "aé…" = ["a"; "é"; "…"].
Proof. repeat split. Qed.

(** What a tabwriter releases before [Flush]: nothing while every line
    has two cells or more; everything held, at a newline that ends a line
    of one cell, and at a form feed; nothing on account of a line break
    inside an escape. *)
Example tabwriter_released_samples :
  let n := GoString.nl in
  let t := GoString.tab in
  let f := String (ascii_of_nat 12) "" in
  let e := String (ascii_of_nat 255) "" in
  tabwriter.released ("a" ++ t ++ "b" ++ n) = ""
  /\ tabwriter.released ("a" ++ n) = ("a" ++ n)%string
  /\ tabwriter.released ("a" ++ t ++ "b" ++ n ++ "c" ++ n ++ "d" ++ t ++ "e" ++ n)
     = ("a" ++ t ++ "b" ++ n ++ "c" ++ n)%string
  /\ tabwriter.released ("a" ++ t ++ "b" ++ f ++ "c") = ("a" ++ t ++ "b" ++ f)%string
  /\ tabwriter.released (e ++ "a" ++ n ++ e ++ t ++ "b" ++ n) = ""
  /\ tabwriter.released (t ++ t ++ "from" ++ t ++ "string" ++ t ++ "x" ++ n ++ n)
     = (t ++ t ++ "from" ++ t ++ "string" ++ t ++ "x" ++ n ++ n)%string.
Proof. repeat split. Qed.

Example strings_samples :
  GoString.ReplaceAll "a|b||c" "|" "\|" = "a\|b\|\|c"
  /\ GoString.ReplaceAll "aaa" "aa" "b" = "ba"
  /\ GoString.TrimPrefix "#Image.from" "#Image." = "from"
  /\ GoString.TrimPrefix "#Image.from" "#Repo." = "#Image.from".
Proof. repeat split. Qed.

Lemma append_empty_r (s : string) : (s ++ "")%string = s.
Proof. induction s as [|c s IH]; simpl; congruence. Qed.

Lemma append_assoc (s t u : string) :
  ((s ++ t) ++ u = s ++ (t ++ u))%string.
Proof. induction s as [|x s IH]; simpl; congruence. Qed.

Lemma countFrom_le (s : string) :
  forall skip, utf8.countFrom skip s <= GoString.len s.
Proof.
  unfold GoString.len.
  induction s as [|c s IH]; intros skip; [simpl; lia|].
  destruct skip as [|k]; cbn [utf8.countFrom String.length].
  - specialize (IH (utf8.runeWidth (String c s) - 1)). lia.
  - specialize (IH k). lia.
Qed.

Lemma RuneCount_le_len (s : string) :
  (utf8.RuneCountInString s <= Z.of_nat (GoString.len s))%Z.
Proof.
  unfold utf8.RuneCountInString. pose proof (countFrom_le s 0). lia.
Qed.

Lemma RuneCount_nonempty (c : ascii) (s : string) :
  (1 <= utf8.RuneCountInString (String c s))%Z.
Proof. unfold utf8.RuneCountInString. simpl utf8.countFrom. lia. Qed.

Lemma len_zero (s : string) : GoString.len s = 0 -> s = "".
Proof. destruct s; [reflexivity|discriminate]. Qed.

Lemma sliceTo_not_Fatal (s : string) (hi : Z) (m : string) (e : error) :
  sliceTo s hi <> Fatal m e.
Proof. unfold sliceTo. destruct (_ || _); discriminate. Qed.

Lemma sliceTo_Panic (s : string) (m : string) :
  sliceTo s (Z.of_nat (GoString.len s) - 4) = Panic m ->
  GoString.len s < 4 /\ m = "slice bounds out of range".
Proof.
  unfold sliceTo.
  destruct (_ || _)%Z eqn:E; [|discriminate].
  intros H. injection H as <-. split; [|reflexivity].
  apply orb_true_iff in E. destruct E as [E|E]; apply Z.ltb_lt in E; lia.
Qed.

Lemma sliceTo_Ok (s p : string) :
  sliceTo s (Z.of_nat (GoString.len s) - 4) = Ok p ->
  4 <= GoString.len s /\ p = substring 0 (GoString.len s - 4) s.
Proof.
  unfold sliceTo.
  destruct (_ || _)%Z eqn:E; [discriminate|].
  apply orb_false_iff in E. destruct E as [E1 E2].
  apply Z.ltb_ge in E1. intros H. injection H as <-.
  split; [lia|]. f_equal. lia.
Qed.

(** ** The truncation loop *)

Lemma trimLoop_step (size : Z) (msg : string) :
  trimLoop size msg =
  if (utf8.RuneCountInString msg >? size)%Z then
    match sliceTo msg (Z.of_nat (GoString.len msg) - 4) with
    | Ok p => trimLoop size (p ++ ellipsis)
    | Fatal m err => Fatal m err
    | Panic m => Panic m
    end
  else Ok msg.
Proof.
  funelim (trimLoop size msg).
  - rewrite e. reflexivity.
  - rewrite e1, e. reflexivity.
  - rewrite e, e0. reflexivity.
  - rewrite e, e0. reflexivity.
Qed.

Lemma trimLoop_fits (size : Z) (msg : string) :
  (utf8.RuneCountInString msg <= size)%Z -> trimLoop size msg = Ok msg.
Proof.
  intros H. rewrite trimLoop_step.
  destruct (Z.gtb_spec (utf8.RuneCountInString msg) size); [lia|reflexivity].
Qed.

(** The loop returns whenever the target is at least one rune and the
    message has four bytes to cut (or fits already). *)
Lemma trimLoop_returns (size : Z) (msg : string) :
  (1 <= size)%Z ->
  4 <= GoString.len msg \/ (utf8.RuneCountInString msg <= size)%Z ->
  exists r, trimLoop size msg = Ok r.
Proof.
  funelim (trimLoop size msg); intros Hsize Hmsg.
  - eexists; reflexivity.
  - apply H; [assumption|].
    clear H. destruct (sliceTo_Ok _ _ e) as [_ Hp].
    destruct p as [|c p'].
    + right. change (utf8.RuneCountInString ("" ++ ellipsis)) with 1%Z. lia.
    + left. rewrite append_len. change (GoString.len ellipsis) with 3.
      unfold GoString.len. simpl. lia.
  - exfalso. eapply sliceTo_not_Fatal; eassumption.
  - exfalso. destruct (sliceTo_Panic _ _ e0) as [Hlt _].
    pose proof (proj1 (Z.gtb_lt _ _) e). lia.
Qed.

(** The loop panics when the message is too long for the target and
    either has fewer than four bytes or can never fit (a target below one
    rune). *)
Lemma trimLoop_panics (size : Z) (msg : string) :
  (utf8.RuneCountInString msg > size)%Z ->
  GoString.len msg < 4 \/ (size < 1)%Z ->
  trimLoop size msg = Panic "slice bounds out of range".
Proof.
  funelim (trimLoop size msg); intros Hcount Hmsg.
  - pose proof (Z.gtb_ltb (utf8.RuneCountInString msg) size) as Hg.
    rewrite e in Hg. symmetry in Hg. apply Z.ltb_ge in Hg. lia.
  - destruct (sliceTo_Ok _ _ e) as [Hlen _].
    destruct Hmsg as [Hmsg|Hmsg]; [lia|].
    apply H; [|right; assumption].
    assert (Hne : exists c s, (p ++ ellipsis)%string = String c s).
    { destruct p as [|c0 p0]; [exists "226"%char|exists c0]; eexists; reflexivity. }
    destruct Hne as (c & s & ->).
    pose proof (RuneCount_nonempty c s). lia.
  - exfalso. eapply sliceTo_not_Fatal; eassumption.
  - destruct (sliceTo_Panic _ _ e0) as [_ ->]. reflexivity.
Qed.

Lemma trimLoop_panics_iff (size : Z) (msg m : string) :
  trimLoop size msg = Panic m <->
  m = "slice bounds out of range"
  /\ (utf8.RuneCountInString msg > size)%Z
  /\ (GoString.len msg < 4 \/ (size < 1)%Z).
Proof.
  split.
  - intros H.
    destruct (Z_le_gt_dec (utf8.RuneCountInString msg) size) as [Hfit|Hbig].
    { rewrite trimLoop_fits in H by assumption. discriminate. }
    destruct (le_lt_dec 4 (GoString.len msg)) as [Hlen|Hlen];
      destruct (Z_lt_le_dec size 1) as [Hs|Hs].
    + rewrite trimLoop_panics in H by (auto; lia).
      injection H as <-. auto.
    + destruct (trimLoop_returns size msg Hs (or_introl Hlen)) as [r Hr].
      congruence.
    + rewrite trimLoop_panics in H by (auto; lia).
      injection H as <-. auto.
    + rewrite trimLoop_panics in H by (auto; lia).
      injection H as <-. auto.
  - intros (-> & Hbig & Hcase). apply trimLoop_panics; assumption.
Qed.

Lemma trimLoop_not_Fatal (size : Z) (msg m : string) (e : error) :
  trimLoop size msg <> Fatal m e.
Proof.
  revert m e. funelim (trimLoop size msg); intros m' e'.
  - discriminate.
  - apply H.
  - intros _. eapply sliceTo_not_Fatal; eassumption.
  - discriminate.
Qed.

(** ** The Markdown escaper *)

Lemma ReplaceAll_byte (c : ascii) (new s : string) :
  GoString.ReplaceAll s (String c "") new = replaceByte c new s.
Proof.
  unfold GoString.ReplaceAll.
  induction s as [|x s IH]; [reflexivity|].
  cbn [GoString.replaceFrom replaceByte prefix GoString.len String.length Nat.sub].
  destruct (ascii_dec c x) as [->|Hne].
  - replace (prefix "" s) with true by (destruct s; reflexivity).
    rewrite Ascii.eqb_refl, IH. reflexivity.
  - destruct (Ascii.eqb_spec x c) as [->|_]; [contradiction|].
    rewrite IH. reflexivity.
Qed.

Lemma replaceByte_app (c : ascii) (new s t : string) :
  replaceByte c new (s ++ t) = (replaceByte c new s ++ replaceByte c new t)%string.
Proof.
  induction s as [|x s IH]; [reflexivity|].
  cbn [append replaceByte]. rewrite IH, append_assoc. reflexivity.
Qed.

Lemma escapeChar_passes (x : ascii) :
  replaceByte ">" "\>" (replaceByte "<" "\<"
    (if (x =? "|")%char then "\|" else String x "")) = escapeChar x.
Proof.
  unfold escapeChar, isSpecial.
  destruct (Ascii.eqb_spec x "|") as [->|H1]; [reflexivity|].
  destruct (Ascii.eqb_spec x "<") as [->|H2]; [reflexivity|].
  cbn [replaceByte orb append].
  destruct (Ascii.eqb_spec x "<") as [->|_]; [contradiction|].
  cbn [replaceByte orb append].
  destruct (Ascii.eqb_spec x ">") as [->|H3]; reflexivity.
Qed.

Lemma mdEscape_escapeEach (s : string) : mdEscape s = escapeEach s.
Proof.
  unfold mdEscape. cbn [fold_left append].
  rewrite !ReplaceAll_byte.
  induction s as [|x s IH]; [reflexivity|].
  cbn [replaceByte escapeEach].
  rewrite !replaceByte_app, IH, escapeChar_passes. reflexivity.
Qed.

Lemma escapeEach_noSpecial (s : string) :
  noSpecial s = true -> escapeEach s = s.
Proof.
  induction s as [|x s IH]; [reflexivity|].
  cbn [noSpecial escapeEach]. intros H.
  apply andb_true_iff in H. destruct H as [Hx Hs].
  unfold escapeChar. apply negb_true_iff in Hx. rewrite Hx, IH by assumption.
  reflexivity.
Qed.

Lemma escapeEach_len (s : string) :
  noSpecial s = false -> GoString.len s < GoString.len (escapeEach s).
Proof.
  assert (Hle : forall t, GoString.len t <= GoString.len (escapeEach t)).
  { induction t as [|x t IH]; [apply le_n|].
    cbn [escapeEach]. rewrite append_len.
    unfold escapeChar. destruct (isSpecial x); unfold GoString.len in *;
      simpl; lia. }
  induction s as [|x s IH]; [discriminate|].
  cbn [noSpecial escapeEach]. rewrite append_len. unfold escapeChar.
  destruct (isSpecial x); cbn [negb andb]; intros H.
  - specialize (Hle s). unfold GoString.len in *. simpl. lia.
  - specialize (IH H). unfold GoString.len in *. simpl. lia.
Qed.

(** C7.  The Markdown escaper puts a backslash before every [|], [<] and
    [>] and leaves every other byte as it is; on a string with none of
    the three it is the identity, and so idempotent; and ["a|b"] becomes
    ["a\|b"]. *)
Theorem mdEscape_each_special_escaped :
  (forall s, mdEscape s = escapeEach s)
  /\ (forall s, noSpecial s = true ->
        mdEscape s = s /\ mdEscape (mdEscape s) = mdEscape s)
  /\ mdEscape "a|b" = "a\|b".
Proof.
  split; [exact mdEscape_escapeEach|]. split; [|reflexivity].
  intros s H.
  assert (Hs : mdEscape s = s).
  { rewrite mdEscape_escapeEach. apply escapeEach_noSpecial, H. }
  split; [exact Hs|]. rewrite Hs. exact Hs.
Qed.

Lemma mdEscape_each_special_escaped_witness :
  mdEscape "A tag" = "A tag"
  /\ mdEscape (mdEscape "A tag") = mdEscape "A tag".
Proof.
  apply (proj1 (proj2 mdEscape_each_special_escaped) "A tag").
  reflexivity.
Defined.

(** ** terminalTrim *)

Section TerminalTrim.

Context {Value : Type} `{E : Env Value}.

Lemma terminalTrim_no_terminal (w h : Z) (err : error) (msg : string) :
  GetSize 1 = (w, h, Some err) -> terminalTrim msg = Ok msg.
Proof. unfold terminalTrim. intros ->. reflexivity. Qed.

Lemma terminalTrim_detected (w h : Z) (msg : string) :
  GetSize 1 = (w, h, None) ->
  terminalTrim msg = trimLoop (Z.quot w 2) msg.
Proof. unfold terminalTrim. intros ->. reflexivity. Qed.

(** When does [terminalTrim] abort?  Exactly when a width is detected,
    the message has more runes than half of it, and either the message
    has fewer than four bytes or half the width is below one. *)
Lemma terminalTrim_panics_iff (w h : Z) (msg m : string) :
  GetSize 1 = (w, h, None) ->
  (terminalTrim msg = Panic m <->
   m = "slice bounds out of range"
   /\ (utf8.RuneCountInString msg > Z.quot w 2)%Z
   /\ (GoString.len msg < 4 \/ (Z.quot w 2 < 1)%Z)).
Proof.
  intros H. rewrite (terminalTrim_detected w h msg H).
  apply trimLoop_panics_iff.
Qed.

(** On a terminal of six columns or more, and when there is no terminal,
    [terminalTrim] returns. *)
Lemma terminalTrim_returns (msg : string) :
  (snd (GetSize 1) <> None \/ (6 <= fst (fst (GetSize 1)))%Z) ->
  exists r, terminalTrim msg = Ok r.
Proof.
  unfold terminalTrim.
  destruct (GetSize 1) as [[w h] [err|]]; cbn [fst snd].
  - intros _. eexists; reflexivity.
  - intros [H|H]; [congruence|].
    assert (Hq : (3 <= Z.quot w 2)%Z).
    { change 3%Z with (Z.quot 6 2). apply Z.quot_le_mono; lia. }
    destruct (le_lt_dec 4 (GoString.len msg)) as [Hlen|Hlen].
    + apply trimLoop_returns; [lia|left; assumption].
    + apply trimLoop_returns; [lia|right].
      pose proof (RuneCount_le_len msg). lia.
Qed.

Lemma terminalTrim_not_Fatal (msg m : string) (e : error) :
  terminalTrim msg <> Fatal m e.
Proof.
  unfold terminalTrim.
  destruct (GetSize 1) as [[w h] [err|]]; [discriminate|].
  apply trimLoop_not_Fatal.
Qed.

End TerminalTrim.

(** ** Truncation of ASCII messages

    The cut of four bytes is right for a message of one-byte runes: the
    first turn drops four characters, every later turn drops the ellipsis
    and one more character. *)

Lemma runeWidth_ascii (c : ascii) (s : string) :
  (GoString.byte c <? utf8.RuneSelf)%N = true ->
  utf8.runeWidth (String c s) = 1.
Proof. unfold utf8.runeWidth. intros ->. reflexivity. Qed.

Lemma countFrom_ascii (s t : string) :
  utf8.isASCII s = true ->
  utf8.countFrom 0 (s ++ t) = GoString.len s + utf8.countFrom 0 t.
Proof.
  induction s as [|c s IH]; [reflexivity|].
  cbn [utf8.isASCII]. intros H. apply andb_true_iff in H.
  destruct H as [Hc Hs].
  change (String c s ++ t)%string with (String c (s ++ t)).
  cbn [utf8.countFrom]. rewrite runeWidth_ascii by assumption.
  cbn [Nat.sub]. rewrite IH by assumption. reflexivity.
Qed.

Lemma RuneCount_ascii_ellipsis (q : string) :
  utf8.isASCII q = true ->
  utf8.RuneCountInString (q ++ ellipsis) = (Z.of_nat (GoString.len q) + 1)%Z.
Proof.
  intros H. unfold utf8.RuneCountInString. rewrite countFrom_ascii by assumption.
  change (utf8.countFrom 0 ellipsis) with 1. lia.
Qed.

Lemma RuneCount_ascii (q : string) :
  utf8.isASCII q = true ->
  utf8.RuneCountInString q = Z.of_nat (GoString.len q).
Proof.
  intros H. unfold utf8.RuneCountInString.
  rewrite <- (append_empty_r q) at 1. rewrite countFrom_ascii by assumption.
  cbn [utf8.countFrom]. lia.
Qed.

Lemma substring_app_l (n : nat) (q t : string) :
  n <= GoString.len q -> substring 0 n (q ++ t) = substring 0 n q.
Proof.
  unfold GoString.len. revert n.
  induction q as [|c q IH]; intros [|n] H; cbn in *; try lia.
  - destruct t; reflexivity.
  - reflexivity.
  - rewrite IH by lia. reflexivity.
Qed.

Lemma substring_all (q : string) : substring 0 (GoString.len q) q = q.
Proof.
  unfold GoString.len. induction q as [|c q IH]; cbn; congruence.
Qed.

Lemma substring_substring (i j : nat) (q : string) :
  j <= i -> substring 0 j (substring 0 i q) = substring 0 j q.
Proof.
  revert i j. induction q as [|c q IH]; intros [|i] [|j] H; cbn;
    try reflexivity; try lia.
  rewrite IH by lia. reflexivity.
Qed.

Lemma isASCII_substring (n : nat) (q : string) :
  utf8.isASCII q = true -> utf8.isASCII (substring 0 n q) = true.
Proof.
  revert n. induction q as [|c q IH]; intros [|n] H; cbn in *;
    try reflexivity.
  apply andb_true_iff in H. destruct H as [Hc Hq].
  apply andb_true_iff. split; [assumption|]. apply IH, Hq.
Qed.

Lemma trimLoop_ascii_ellipsis (size : Z) :
  (1 <= size)%Z ->
  forall n q,
    GoString.len q = n ->
    utf8.isASCII q = true ->
    trimLoop size (q ++ ellipsis)
    = Ok (substring 0 (Nat.min n (Z.to_nat (size - 1))) q ++ ellipsis)%string.
Proof.
  intros Hsize. induction n as [|n IH]; intros q Hlen Hq;
    rewrite trimLoop_step, RuneCount_ascii_ellipsis by assumption;
    rewrite Hlen.
  - destruct (Z.gtb_spec (Z.of_nat 0 + 1) size) as [Hgt|_]; [lia|].
    apply len_zero in Hlen. subst q. reflexivity.
  - destruct (Z.gtb_spec (Z.of_nat (S n) + 1) size) as [Hgt|Hle].
    + unfold sliceTo. rewrite append_len, Hlen.
      change (GoString.len ellipsis) with 3.
      destruct (_ || _)%Z eqn:Hb.
      { apply orb_true_iff in Hb. destruct Hb as [Hb|Hb];
          apply Z.ltb_lt in Hb; lia. }
      replace (Z.to_nat (Z.of_nat (S n + 3) - 4)) with n by lia.
      rewrite substring_app_l by lia.
      rewrite (IH (substring 0 n q)).
      * rewrite substring_substring by lia.
        replace (Nat.min (S n) (Z.to_nat (size - 1)))
          with (Nat.min n (Z.to_nat (size - 1))) by lia.
        reflexivity.
      * apply substring_len. lia.
      * apply isASCII_substring, Hq.
    + replace (Nat.min (S n) (Z.to_nat (size - 1))) with (S n) by lia.
      rewrite <- Hlen, substring_all. reflexivity.
Qed.

(** An ASCII message of four bytes or more that does not fit comes back
    as a prefix of itself followed by the ellipsis, and fits. *)
Lemma trimLoop_ascii (size : Z) (msg : string) :
  (1 <= size)%Z ->
  utf8.isASCII msg = true ->
  4 <= GoString.len msg ->
  (utf8.RuneCountInString msg > size)%Z ->
  let k := Nat.min (GoString.len msg - 4) (Z.to_nat (size - 1)) in
  trimLoop size msg = Ok (substring 0 k msg ++ ellipsis)%string
  /\ (utf8.RuneCountInString (substring 0 k msg ++ ellipsis) <= size)%Z.
Proof.
  intros Hsize Hmsg Hlen Hbig k.
  assert (Hres : trimLoop size msg = Ok (substring 0 k msg ++ ellipsis)%string).
  { rewrite trimLoop_step.
    destruct (Z.gtb_spec (utf8.RuneCountInString msg) size) as [_|Hle]; [|lia].
    unfold sliceTo.
    destruct (_ || _)%Z eqn:Hb.
    { apply orb_true_iff in Hb. destruct Hb as [Hb|Hb];
        apply Z.ltb_lt in Hb; lia. }
    replace (Z.to_nat (Z.of_nat (GoString.len msg) - 4))
      with (GoString.len msg - 4) by lia.
    rewrite (trimLoop_ascii_ellipsis size Hsize (GoString.len msg - 4)).
    - rewrite substring_substring by lia. reflexivity.
    - apply substring_len. lia.
    - apply isASCII_substring, Hmsg. }
  split; [exact Hres|].
  rewrite RuneCount_ascii_ellipsis by (apply isASCII_substring, Hmsg).
  rewrite substring_len by lia. lia.
Qed.

Lemma runesFrom_ascii (s : string) :
  utf8.isASCII s = true ->
  forall c,
    utf8.runesFrom 0 (String c "") s
    = String c "" :: map (fun x => String x "") (list_ascii_of_string s).
Proof.
  induction s as [|x s IH]; intros H c; [reflexivity|].
  cbn [utf8.isASCII] in H. apply andb_true_iff in H. destruct H as [Hx Hs].
  cbn [utf8.runesFrom list_ascii_of_string map].
  rewrite runeWidth_ascii by assumption. cbn [Nat.sub].
  rewrite IH by assumption. reflexivity.
Qed.

Lemma runePrefix_ascii (k : nat) (s : string) :
  utf8.isASCII s = true -> utf8.runePrefix k s = substring 0 k s.
Proof.
  unfold utf8.runePrefix, utf8.runes. intros H.
  assert (Hr : utf8.runesFrom 0 "" s
               = map (fun x => String x "") (list_ascii_of_string s)).
  { destruct s as [|c s]; [reflexivity|].
    cbn [utf8.isASCII] in H. apply andb_true_iff in H. destruct H as [Hc Hs].
    cbn [utf8.runesFrom]. rewrite runeWidth_ascii by assumption.
    cbn [Nat.sub]. apply runesFrom_ascii, Hs. }
  rewrite Hr. clear. revert k.
  induction s as [|c s IH]; intros [|k]; cbn; try reflexivity.
  f_equal. apply IH.
Qed.

(** On ASCII messages of four bytes or more, and a terminal of two
    columns or more, [terminalTrim] gives a rune prefix of the message
    followed by the ellipsis, within the target. *)
Lemma terminalTrim_ascii {Value : Type} {E : Env Value}
    (w h : Z) (msg : string) :
  GetSize 1 = (w, h, None) ->
  (1 <= Z.quot w 2)%Z ->
  utf8.isASCII msg = true ->
  4 <= GoString.len msg ->
  (utf8.RuneCountInString msg > Z.quot w 2)%Z ->
  exists k r,
    terminalTrim msg = Ok r
    /\ r = (utf8.runePrefix k msg ++ ellipsis)%string
    /\ (utf8.RuneCountInString r <= Z.quot w 2)%Z.
Proof.
  intros Hsize Hw Hmsg Hlen Hbig.
  destruct (trimLoop_ascii (Z.quot w 2) msg Hw Hmsg Hlen Hbig) as [Hres Hfit].
  eexists. eexists. rewrite (terminalTrim_detected w h msg Hsize).
  split; [exact Hres|]. rewrite runePrefix_ascii by assumption.
  split; [reflexivity|exact Hfit].
Qed.

(** C9.  With a detected width, a message whose rune count is at most
    half the width comes back unchanged; and when the width is 20, the
    message ["abcdefghijklmnop"] comes back with at most 10 runes and
    ends with the ellipsis. *)
Theorem terminalTrim_fits_unchanged
    {Value : Type} {E : Env Value} (w h : Z) :
  GetSize 1 = (w, h, None) ->
  (forall msg, (utf8.RuneCountInString msg <= Z.quot w 2)%Z ->
     terminalTrim msg = Ok msg)
  /\ (w = 20%Z ->
      exists r, terminalTrim "abcdefghijklmnop" = Ok r
                /\ (utf8.RuneCountInString r <= 10)%Z
                /\ HasSuffix r ellipsis = true).
Proof.
  intros Hsize. split.
  - intros msg Hfit. rewrite (terminalTrim_detected w h msg Hsize).
    apply trimLoop_fits, Hfit.
  - intros ->. rewrite (terminalTrim_detected 20 h _ Hsize).
    exists "abcdefghi…". repeat split.
    vm_compute. discriminate.
Qed.

Lemma terminalTrim_fits_unchanged_witness :
  terminalTrim (E := Demo.tty 20) "A tag" = Ok "A tag"
  /\ exists r,
       terminalTrim (E := Demo.tty 20) "abcdefghijklmnop" = Ok r
       /\ (utf8.RuneCountInString r <= 10)%Z
       /\ HasSuffix r ellipsis = true.
Proof.
  destruct (@terminalTrim_fits_unchanged _ (Demo.tty 20)
              20%Z 24%Z eq_refl) as [Hfit Hex].
  split.
  - apply Hfit. vm_compute. discriminate.
  - apply Hex. reflexivity.
Defined.

(** C3.  [terminalTrim] is not total: on a terminal two columns wide the
    two-byte message ["ab"] has more runes than the target of one, and the
    slice [msg[0:len(msg)-4]] is out of range; on a terminal that reports
    zero columns the same happens to the one-byte message ["-"]. *)
Theorem terminalTrim_short_message_panics :
  terminalTrim (E := Demo.tty 2) "ab"
    = Panic "slice bounds out of range"
  /\ terminalTrim (E := Demo.tty 0) "-"
    = Panic "slice bounds out of range"
  /\ sliceTo "ab" (Z.of_nat (GoString.len "ab") - 4)
    = Panic "slice bounds out of range".
Proof. repeat split. Qed.

(** C2.  The cut is made in bytes, not in runes: on a terminal eight
    columns wide the five-rune message ["ééééa"] (nine bytes) loses its
    last four bytes, which leaves the first byte of the third rune in
    place.  The result is not valid UTF-8 and is no rune prefix of the
    message followed by the ellipsis. *)
Theorem terminalTrim_splits_rune :
  let msg := "ééééa" in
  let r := ("éé" ++ String (ascii_of_nat 195) "" ++ ellipsis)%string in
  terminalTrim (E := Demo.tty 8) msg = Ok r
  /\ utf8.ValidString msg = true
  /\ utf8.ValidString r = false
  /\ forall k, r <> (utf8.runePrefix k msg ++ ellipsis)%string.
Proof.
  repeat split.
  intros [|[|[|[|[|[|k]]]]]]; vm_compute; discriminate.
Qed.

(** ** Loops and effects *)

Lemma forRange_ok {A S : Type} (body : A -> S -> M S) (g : A -> S -> S)
    (l : list A) :
  (forall x s, In x l -> body x s = ([], Ok (g x s))) ->
  forall s, forRange l body s = ([], Ok (fold_left (fun s x => g x s) l s)).
Proof.
  induction l as [|x l IH]; intros Hbody s; [reflexivity|].
  cbn [forRange fold_left]. rewrite Hbody by (left; reflexivity).
  cbn [bind]. rewrite IH by (intros; apply Hbody; right; assumption).
  reflexivity.
Qed.

Lemma forRange_output {A S : Type} (body : A -> S -> M S)
    (out : A -> list Out) (l : list A) :
  (forall x s, body x s = (out x, Ok s)) ->
  forall s, forRange l body s = (flat_map out l, Ok s).
Proof.
  intros Hbody. induction l as [|x l IH]; intros s; [reflexivity|].
  cbn [forRange flat_map]. rewrite Hbody. cbn [bind]. rewrite IH.
  reflexivity.
Qed.

Lemma fold_left_append (A : Type) (f : A -> string) (l : list A) :
  forall w, fold_left (fun w i => (w ++ f i)%string) l w
            = (w ++ GoString.concat (map f l))%string.
Proof.
  induction l as [|x l IH]; intros w; cbn [fold_left map GoString.concat fold_right].
  - rewrite append_empty_r. reflexivity.
  - rewrite IH, append_assoc. reflexivity.
Qed.

Lemma fold_left_append1 (A B : Type) (f : A -> B) (l : list A) :
  forall acc, fold_left (fun s i => append1 s (f i)) l (Slice acc)
              = Slice (acc ++ map f l).
Proof.
  induction l as [|x l IH]; intros acc; cbn [fold_left map].
  - rewrite app_nil_r. reflexivity.
  - unfold append1 at 2. cbn [elements]. rewrite IH, <- app_assoc.
    reflexivity.
Qed.

Lemma flat_map_filter (A B : Type) (q : A -> bool) (f : A -> list B)
    (l : list A) :
  flat_map (fun x => if q x then f x else []) l = flat_map f (filter q l).
Proof.
  induction l as [|x l IH]; [reflexivity|].
  cbn [flat_map filter]. destruct (q x); cbn [flat_map app]; rewrite IH;
    reflexivity.
Qed.

(** Decide the [switch format] for a format that is known. *)
Ltac pick_format :=
  cbv [textFormat markdownFormat jsonFormat];
  repeat match goal with
         | |- context [String.eqb ?a ?b] =>
             let v := eval vm_compute in (String.eqb a b) in
             lazymatch v with
             | true => change (String.eqb a b) with true
             | false => change (String.eqb a b) with false
             end
         end;
  cbv iota.

(** ** The table printers *)

Section Printers.

Context {Value : Type} `{E : Env Value}.

Lemma printValuesMarkdown_table (libName : string) (values : list Value) :
  printValuesMarkdown libName values = ([mdTable libName values], Ok tt).
Proof.
  unfold printValuesMarkdown, mdTable, flush.
  rewrite fold_left_append, append_assoc. reflexivity.
Qed.

Lemma valuesToJSON_summaries (libName : string) (values : list Value) :
  valuesToJSON libName values = summaries libName values.
Proof.
  unfold valuesToJSON, summaries.
  exact (fold_left_append1 _ _ (summary libName) values []).
Qed.

Lemma terminalTrim_trimmed (msg : string) :
  wideEnough -> terminalTrim msg = Ok (trimmed msg).
Proof.
  intros H. destruct (terminalTrim_returns msg H) as [r Hr].
  unfold trimmed. rewrite Hr. reflexivity.
Qed.

Lemma printValuesText_table (libName : string) (values : list Value) :
  wideEnough ->
  printValuesText libName values
  = ([Stdout (GoString.nl ++ textPadding ++ "Inputs:" ++ GoString.nl);
      Tabwriter (GoString.concat (map (textRow libName) values))], Ok tt).
Proof.
  intros Hw. unfold printValuesText.
  rewrite (forRange_ok _ (fun i w => (w ++ textRow libName i)%string)).
  - rewrite fold_left_append. reflexivity.
  - intros i w _. unfold textRowStep.
    rewrite terminalTrim_trimmed by assumption. reflexivity.
Qed.

End Printers.

(** ** The loop body, format by format *)

Section Body.

Context {Value : Type} `{E : Env Value}.

Lemma fieldBody_skips (val : Value) (format : string) (f : Field Value)
    (pkg : PackageJSON.t) :
  qualifies f = false -> fieldBody val format f pkg = ([], Ok pkg).
Proof.
  unfold qualifies, fieldBody. intros H.
  destruct (IsDefinition f); [|reflexivity].
  cbn [andb] in H. rewrite H. reflexivity.
Qed.

Lemma fieldBody_enters (val : Value) (format : string) (f : Field Value)
    (pkg : PackageJSON.t) :
  qualifies f = true ->
  fieldBody val format f pkg
  = bind (renderHeading val format (Label f) (FieldValue f) FieldJSON.zero)
      (fun fieldJSON =>
         bind (renderInputs format (Label f) (FieldValue f) fieldJSON)
           (fun fieldJSON =>
              renderOutputs format (Label f) (FieldValue f) fieldJSON pkg)).
Proof.
  unfold qualifies, fieldBody. intros H.
  apply andb_true_iff in H. destruct H as [-> ->]. reflexivity.
Qed.

Lemma renderHeading_md (val : Value) (name : string) (v : Value)
    (fj : FieldJSON.t) :
  renderHeading val "md" name v fj
  = (Stdout ("### " ++ name ++ GoString.nl ++ GoString.nl)
     :: (if (ValueDocString v =? "-")%string then []
         else [Stdout (mdEscape (ValueDocString v)
                       ++ GoString.nl ++ GoString.nl)]),
     Ok fj).
Proof.
  unfold renderHeading. pick_format.
  destruct (ValueDocString v =? "-")%string; reflexivity.
Qed.

Lemma renderHeading_txt (val : Value) (name : string) (v : Value)
    (fj : FieldJSON.t) :
  renderHeading val "txt" name v fj
  = ([Stdout (GoString.nl ++ name ++ GoString.nl ++ GoString.nl
              ++ textPadding ++ ValueDocString v ++ GoString.nl)], Ok fj).
Proof. reflexivity. Qed.

Lemma renderHeading_json (val : Value) (name : string) (v : Value)
    (fj : FieldJSON.t) :
  renderHeading val "json" name v fj
  = ([], Ok (FieldJSON.setDescription (FieldJSON.setName fj name)
               (if (ValueDocString val =? "")%string
                then FieldJSON.Description fj else ValueDocString val))).
Proof.
  unfold renderHeading. pick_format.
  destruct (ValueDocString val =? "")%string; cbn [negb];
    destruct fj; reflexivity.
Qed.

Lemma renderInputs_md (name : string) (v : Value) (fj : FieldJSON.t) :
  renderInputs "md" name v fj
  = (mdGroup "Inputs" "_No input._" name (ScanInputs v), Ok fj).
Proof.
  unfold renderInputs. pick_format.
  destruct (ScanInputs v) as [|i inp] eqn:Hinp; [reflexivity|].
  cbn [List.length Nat.eqb]. rewrite printValuesMarkdown_table.
  reflexivity.
Qed.

Lemma renderOutputs_md (name : string) (v : Value) (fj : FieldJSON.t)
    (pkg : PackageJSON.t) :
  renderOutputs "md" name v fj pkg
  = (mdGroup "Outputs" "_No output._" name (ScanOutputs v), Ok pkg).
Proof.
  unfold renderOutputs. pick_format.
  destruct (ScanOutputs v) as [|i out] eqn:Hout; [reflexivity|].
  cbn [List.length Nat.eqb]. rewrite printValuesMarkdown_table.
  reflexivity.
Qed.

Lemma renderInputs_txt (name : string) (v : Value) (fj : FieldJSON.t) :
  wideEnough ->
  renderInputs "txt" name v fj
  = (textGroup "Inputs: none" name (ScanInputs v), Ok fj).
Proof.
  intros Hw. unfold renderInputs. pick_format.
  destruct (ScanInputs v) as [|i inp] eqn:Hinp; [reflexivity|].
  cbn [List.length Nat.eqb]. rewrite printValuesText_table by assumption.
  reflexivity.
Qed.

Lemma renderOutputs_txt (name : string) (v : Value) (fj : FieldJSON.t)
    (pkg : PackageJSON.t) :
  wideEnough ->
  renderOutputs "txt" name v fj pkg
  = (textGroup "Outputs: none" name (ScanOutputs v), Ok pkg).
Proof.
  intros Hw. unfold renderOutputs. pick_format.
  destruct (ScanOutputs v) as [|i out] eqn:Hout; [reflexivity|].
  cbn [List.length Nat.eqb]. rewrite printValuesText_table by assumption.
  reflexivity.
Qed.

Lemma renderInputs_json (name : string) (v : Value) (fj : FieldJSON.t) :
  renderInputs "json" name v fj
  = ([], Ok (FieldJSON.setInputs fj (summaries name (ScanInputs v)))).
Proof.
  unfold renderInputs. pick_format. rewrite valuesToJSON_summaries.
  reflexivity.
Qed.

Lemma renderOutputs_json (name : string) (v : Value) (fj : FieldJSON.t)
    (pkg : PackageJSON.t) :
  renderOutputs "json" name v fj pkg
  = ([], Ok (PackageJSON.setFields pkg
               (append1 (PackageJSON.Fields pkg)
                  (FieldJSON.setOutputs fj
                     (summaries name (ScanOutputs v)))))).
Proof.
  unfold renderOutputs. pick_format. rewrite valuesToJSON_summaries.
  reflexivity.
Qed.

Lemma fieldBody_md (val : Value) (f : Field Value) (pkg : PackageJSON.t) :
  qualifies f = true -> fieldBody val "md" f pkg = (mdField f, Ok pkg).
Proof.
  intros Hq. rewrite fieldBody_enters by assumption.
  rewrite renderHeading_md. cbn [bind].
  rewrite renderInputs_md. cbn [bind]. rewrite renderOutputs_md.
  reflexivity.
Qed.

Lemma fieldBody_txt (val : Value) (f : Field Value) (pkg : PackageJSON.t) :
  wideEnough ->
  qualifies f = true -> fieldBody val "txt" f pkg = (textField f, Ok pkg).
Proof.
  intros Hw Hq. rewrite fieldBody_enters by assumption.
  rewrite renderHeading_txt. cbn [bind].
  rewrite renderInputs_txt by assumption. cbn [bind].
  rewrite renderOutputs_txt by assumption.
  unfold textField. reflexivity.
Qed.

Lemma fieldBody_json (val : Value) (f : Field Value) (pkg : PackageJSON.t) :
  qualifies f = true ->
  fieldBody val "json" f pkg
  = ([], Ok (PackageJSON.setFields pkg
               (append1 (PackageJSON.Fields pkg)
                  (jsonField (ValueDocString val) f)))).
Proof.
  intros Hq. rewrite fieldBody_enters by assumption.
  rewrite renderHeading_json. cbn [bind].
  rewrite renderInputs_json. cbn [bind]. rewrite renderOutputs_json.
  unfold jsonField. cbn.
  destruct (ValueDocString val =? "")%string eqn:Hd; [|reflexivity].
  apply String.eqb_eq in Hd. rewrite Hd. reflexivity.
Qed.

(** The loop over the members, format by format. *)
Lemma fields_md (val : Value) (root : list (Field Value))
    (pkg : PackageJSON.t) :
  forRange root (fieldBody val "md") pkg
  = (flat_map mdField (discoverFields root), Ok pkg).
Proof.
  unfold discoverFields. rewrite <- flat_map_filter.
  apply forRange_output. intros f s.
  destruct (qualifies f) eqn:Hq.
  - apply fieldBody_md, Hq.
  - apply fieldBody_skips, Hq.
Qed.

Lemma fields_txt (val : Value) (root : list (Field Value))
    (pkg : PackageJSON.t) :
  wideEnough ->
  forRange root (fieldBody val "txt") pkg
  = (flat_map textField (discoverFields root), Ok pkg).
Proof.
  intros Hw. unfold discoverFields. rewrite <- flat_map_filter.
  apply forRange_output. intros f s.
  destruct (qualifies f) eqn:Hq.
  - apply fieldBody_txt; assumption.
  - apply fieldBody_skips, Hq.
Qed.

Lemma fields_json (val : Value) (root : list (Field Value)) :
  forall pkg,
    forRange root (fieldBody val "json") pkg
    = ([], Ok (PackageJSON.setFields pkg
                 (fold_left append1
                    (map (jsonField (ValueDocString val))
                       (discoverFields root))
                    (PackageJSON.Fields pkg)))).
Proof.
  induction root as [|f root IH]; intros pkg.
  - destruct pkg; reflexivity.
  - cbn [forRange discoverFields filter].
    destruct (qualifies f) eqn:Hq.
    + rewrite fieldBody_json by assumption. cbn [bind].
      rewrite IH. destruct pkg; reflexivity.
    + rewrite fieldBody_skips by assumption. cbn [bind].
      rewrite IH. reflexivity.
Qed.

End Body.

(** ** The driver *)

Section Driver.

Context {Value : Type} `{E : Env Value}.

Lemma fold_left_append1_nil (A : Type) (l : list A) :
  fold_left append1 l nilSlice
  = match l with [] => nilSlice | _ => Slice l end.
Proof.
  destruct l as [|x l]; [reflexivity|].
  cbn [fold_left].
  change (append1 nilSlice x) with (Slice [x]).
  etransitivity; [exact (fold_left_append1 A A (fun i => i) l [x])|].
  rewrite map_id. reflexivity.
Qed.

Lemma PrintDoc_fatal (packageName : string) (val : Value) (format : string)
    (root : list (Field Value)) (err : error) :
  Fields val = (root, Some err) ->
  PrintDoc packageName val format = ([], Fatal "cannot get fields" err).
Proof. unfold PrintDoc. intros ->. reflexivity. Qed.

Lemma PrintDoc_md (packageName : string) (val : Value)
    (root : list (Field Value)) :
  Fields val = (root, None) ->
  PrintDoc packageName val "md"
  = (mdDocument packageName val root, Ok tt).
Proof.
  unfold PrintDoc, mdDocument, mdHeader. intros ->. pick_format.
  destruct (ValueDocString val =? "-")%string;
    cbn [bind print ret app]; rewrite fields_md; cbn [bind ret];
    rewrite app_nil_r; reflexivity.
Qed.

Lemma PrintDoc_txt (packageName : string) (val : Value)
    (root : list (Field Value)) :
  wideEnough ->
  Fields val = (root, None) ->
  PrintDoc packageName val "txt"
  = (textDocument packageName val root, Ok tt).
Proof.
  unfold PrintDoc, textDocument, textHeader. intros Hw ->. pick_format.
  cbn [bind print ret app]. rewrite fields_txt by assumption.
  cbn [bind ret]. rewrite app_nil_r. reflexivity.
Qed.

Lemma PrintDoc_json (packageName : string) (val : Value)
    (root : list (Field Value)) :
  Fields val = (root, None) ->
  PrintDoc packageName val "json"
  = ([StdoutJSON (json.encodePackage (jsonDocument packageName val root))],
     Ok tt).
Proof.
  unfold PrintDoc, jsonDocument. intros ->. pick_format.
  destruct (ValueDocString val =? "")%string eqn:Hd;
    cbn [negb bind ret app]; rewrite fields_json;
    cbn [PackageJSON.setName PackageJSON.setDescription PackageJSON.zero
         PackageJSON.setFields PackageJSON.Name PackageJSON.Description
         PackageJSON.Fields];
    rewrite fold_left_append1_nil.
  - apply String.eqb_eq in Hd. rewrite Hd.
    destruct (discoverFields root); reflexivity.
  - destruct (discoverFields root); reflexivity.
Qed.

Lemma jsonDocument_fields (packageName : string) (val : Value)
    (root : list (Field Value)) :
  elements (PackageJSON.Fields (jsonDocument packageName val root))
  = map (jsonField (ValueDocString val)) (discoverFields root).
Proof.
  unfold jsonDocument. cbn [PackageJSON.Fields].
  destruct (discoverFields root); reflexivity.
Qed.

End Driver.

(** ** Text mode, whenever the run returns *)

Lemma bind_Ok_inv {A B : Type} (m : M A) (k : A -> M B) (o : list Out)
    (b : B) :
  bind m k = (o, Ok b) ->
  exists o1 a o2, m = (o1, Ok a) /\ k a = (o2, Ok b) /\ o = o1 ++ o2.
Proof.
  destruct m as [o1 [a|msg err|msg]]; cbn [bind]; try discriminate.
  destruct (k a) as [o2 r] eqn:Hk. intros H. injection H as <- ->.
  exists o1, a, o2. auto.
Qed.

Section TextReturns.

Context {Value : Type} `{E : Env Value}.

Import GoString.

Lemma abandoning_Ok_inv {A : Type} (w : string) (r : Res A)
    (o : list Out) (a : A) :
  abandoning w (lift r) = (o, Ok a) -> o = [] /\ r = Ok a.
Proof.
  unfold abandoning, lift. destruct r as [a'|msg err|msg]; intros H;
    try discriminate.
  injection H as <- <-. auto.
Qed.

Lemma textRows_returns (libName : string) (values : list Value) :
  forall w o w',
    forRange values (textRowStep libName) w = (o, Ok w') ->
    o = [] /\ w' = (w ++ concat (map (textRow libName) values))%string.
Proof.
  induction values as [|i values IH]; intros w o w' H.
  - cbn in H. injection H as <- <-. split; [reflexivity|].
    cbn [map concat fold_right]. rewrite append_empty_r. reflexivity.
  - cbn [forRange] in H. apply bind_Ok_inv in H.
    destruct H as (o1 & w1 & o2 & Hbody & Hrest & ->).
    unfold textRowStep in Hbody. apply bind_Ok_inv in Hbody.
    destruct Hbody as (o3 & r & o4 & Htrim & Hret & ->).
    apply abandoning_Ok_inv in Htrim. destruct Htrim as [-> Htrim].
    unfold ret in Hret. injection Hret as <- <-.
    apply IH in Hrest. destruct Hrest as [-> ->].
    split; [reflexivity|].
    assert (Hrow : textRow libName i
                   = (tab ++ tab ++ formatLabel libName i ++ tab
                      ++ FormatValue i ++ tab ++ r ++ nl)%string).
    { unfold textRow, trimmed. rewrite Htrim. reflexivity. }
    cbn [map concat fold_right]. rewrite Hrow, append_assoc. reflexivity.
Qed.

Lemma printValuesText_returns (libName : string) (values : list Value)
    (o : list Out) :
  printValuesText libName values = (o, Ok tt) ->
  o = [Stdout (nl ++ textPadding ++ "Inputs:" ++ nl);
       Tabwriter (concat (map (textRow libName) values))].
Proof.
  unfold printValuesText. cbn [bind print]. intros H.
  destruct (bind (forRange _ _ _) _) as [o' r] eqn:Hb.
  injection H as <- ->.
  apply bind_Ok_inv in Hb. destruct Hb as (o1 & w & o2 & Hrows & Hfl & ->).
  apply textRows_returns in Hrows. destruct Hrows as [-> ->].
  unfold flush in Hfl. injection Hfl as <-. reflexivity.
Qed.

Lemma textGroup_returns (none : string) (name : string)
    (values : list Value) (o : list Out) :
  (if (List.length values =? 0)%nat
   then print (nl ++ textPadding ++ none ++ nl)
   else printValuesText name values) = (o, Ok tt) ->
  o = textGroup none name values.
Proof.
  destruct values as [|i values]; cbn [List.length Nat.eqb].
  - intros H. injection H as <-. reflexivity.
  - intros H. apply printValuesText_returns in H. exact H.
Qed.

Lemma fieldBody_txt_returns (val : Value) (f : Field Value)
    (pkg pkg' : PackageJSON.t) (o : list Out) :
  fieldBody val "txt" f pkg = (o, Ok pkg') ->
  pkg' = pkg /\ o = if qualifies f then textField f else [].
Proof.
  destruct (qualifies f) eqn:Hq.
  - rewrite fieldBody_enters by assumption.
    rewrite renderHeading_txt. intros H.
    apply bind_Ok_inv in H. destruct H as (o1 & fj & o2 & Hh & H & ->).
    injection Hh as <- <-.
    apply bind_Ok_inv in H. destruct H as (o3 & fj' & o4 & Hin & Hout & ->).
    unfold renderInputs in Hin. unfold renderOutputs in Hout.
    revert Hin Hout. pick_format. intros Hin Hout.
    apply bind_Ok_inv in Hin. destruct Hin as (oi & [] & ? & Hin & Hr & ->).
    injection Hr as <- <-.
    apply bind_Ok_inv in Hout. destruct Hout as (oo & [] & ? & Hout & Hr & ->).
    injection Hr as <- <-.
    apply textGroup_returns in Hin, Hout. subst oi oo.
    split; [reflexivity|]. unfold textField.
    rewrite !app_nil_r. reflexivity.
  - rewrite fieldBody_skips by assumption. intros H.
    injection H as <- <-. auto.
Qed.

Lemma fields_txt_returns (val : Value) (root : list (Field Value)) :
  forall pkg pkg' o,
    forRange root (fieldBody val "txt") pkg = (o, Ok pkg') ->
    o = flat_map textField (discoverFields root).
Proof.
  induction root as [|f root IH]; intros pkg pkg' o H.
  - injection H as <- _. reflexivity.
  - cbn [forRange] in H. apply bind_Ok_inv in H.
    destruct H as (o1 & p & o2 & Hf & Hrest & ->).
    apply fieldBody_txt_returns in Hf. destruct Hf as [-> ->].
    apply IH in Hrest. subst o2.
    cbn [discoverFields filter]. destruct (qualifies f); reflexivity.
Qed.

(** Whenever the text run returns, it has printed the text document. *)
Lemma PrintDoc_txt_returns (packageName : string) (val : Value)
    (root : list (Field Value)) (o : list Out) :
  Fields val = (root, None) ->
  PrintDoc packageName val "txt" = (o, Ok tt) ->
  o = textDocument packageName val root.
Proof.
  unfold PrintDoc, textDocument, textHeader. intros ->. pick_format.
  cbn [bind print ret app]. intros H.
  destruct (bind (forRange _ _ _) _) as [o' r] eqn:Hb.
  injection H as <- ->.
  apply bind_Ok_inv in Hb. destruct Hb as (o1 & p & o2 & Hf & Hr & ->).
  injection Hr as <-. apply fields_txt_returns in Hf. subst o1.
  rewrite app_nil_r. reflexivity.
Qed.

End TextReturns.

(** ** JSON descriptions *)

(** C1.  In JSON mode the description stored in every field record is the
    doc string of the package value: the run prints one package record
    whose fields are the discovered fields by name, each with the
    package's own description; and the step that fills a field's name and
    description gives the same record whatever the field's value is. *)
Theorem json_field_description_is_package_doc
    {Value : Type} {E : Env Value}
    (packageName : string) (val : Value) (root : list (Field Value)) :
  Fields val = (root, None) ->
  (exists pkg : PackageJSON.t,
     PrintDoc packageName val "json"
     = ([StdoutJSON (json.encodePackage pkg)], Ok tt)
     /\ PackageJSON.Description pkg = ValueDocString val
     /\ map FieldJSON.Name (elements (PackageJSON.Fields pkg))
        = map Label (discoverFields root)
     /\ Forall (fun fj => FieldJSON.Description fj = ValueDocString val
                          /\ FieldJSON.Description fj
                             = PackageJSON.Description pkg)
          (elements (PackageJSON.Fields pkg)))
  /\ (forall name v v' fj,
        renderHeading val "json" name v fj
        = renderHeading val "json" name v' fj).
Proof.
  intros Hroot. split; [|reflexivity].
  exists (jsonDocument packageName val root).
  split; [apply PrintDoc_json, Hroot|].
  split; [reflexivity|].
  rewrite jsonDocument_fields. split.
  - rewrite map_map. reflexivity.
  - apply Forall_forall. intros fj Hin.
    apply in_map_iff in Hin. destruct Hin as (f & <- & _).
    split; reflexivity.
Qed.

Lemma json_field_description_is_package_doc_witness :
  Demo.doc Demo.Image = "-"
  /\ exists pkg : PackageJSON.t,
       PrintDoc (E := Demo.piped) "images" Demo.Root "json"
       = ([StdoutJSON (json.encodePackage pkg)], Ok tt)
       /\ PackageJSON.Description pkg = "Container images"
       /\ map FieldJSON.Name (elements (PackageJSON.Fields pkg))
          = ["#Image"; "#Repo"]
       /\ Forall (fun fj => FieldJSON.Description fj = "Container images"
                            /\ FieldJSON.Description fj
                               = PackageJSON.Description pkg)
            (elements (PackageJSON.Fields pkg)).
Proof.
  split; [reflexivity|].
  exact (proj1 (@json_field_description_is_package_doc _ Demo.piped "images"
                  Demo.Root (fst (Demo.members Demo.Root)) eq_refl)).
Defined.

(** ** Which members are rendered *)

(** One turn of the loop over the package members.  A member that is
    not a definition of struct kind leaves everything as it was, in every
    format: nothing is printed, the package record is unchanged, and the
    turn returns normally (no fatal log entry, no panic).  A member that
    is one is rendered: text mode prints its name and description first,
    Markdown mode prints its heading first, JSON mode appends its record
    to the package record.  Over a whole run, the Markdown document and
    the JSON record hold the blocks of exactly the members that are
    definitions of struct kind, and so does the text document whenever
    the text run returns. *)
Theorem member_rendered_iff_struct_definition
    {Value : Type} {E : Env Value}
    (val : Value) (f : Field Value) (pkg : PackageJSON.t) :
  (qualifies f = false ->
     forall format, fieldBody val format f pkg = ([], Ok pkg))
  /\ (qualifies f = true ->
      (exists rest r,
          fieldBody val "txt" f pkg
          = (Stdout (GoString.nl ++ Label f ++ GoString.nl ++ GoString.nl
                     ++ textPadding ++ ValueDocString (FieldValue f)
                     ++ GoString.nl) :: rest, r))
      /\ (exists rest,
            fieldBody val "md" f pkg
            = (Stdout ("### " ++ Label f ++ GoString.nl ++ GoString.nl)
                 :: rest, Ok pkg))
      /\ (exists fj,
            fieldBody val "json" f pkg
            = ([], Ok (PackageJSON.setFields pkg
                         (append1 (PackageJSON.Fields pkg) fj)))
            /\ FieldJSON.Name fj = Label f))
  /\ (qualifies f = true <->
      IsDefinition f = true /\ IncompleteKind (FieldValue f) = StructKind)
  /\ (forall packageName root,
        Fields val = (root, None) ->
        PrintDoc packageName val "md"
        = (mdHeader packageName val
             ++ flat_map mdField (filter qualifies root), Ok tt)
        /\ (exists p,
              PrintDoc packageName val "json"
              = ([StdoutJSON (json.encodePackage p)], Ok tt)
              /\ elements (PackageJSON.Fields p)
                 = map (jsonField (ValueDocString val))
                     (filter qualifies root))
        /\ (forall o,
              PrintDoc packageName val "txt" = (o, Ok tt) ->
              o = textHeader packageName val
                    ++ flat_map textField (filter qualifies root))).
Proof.
  split; [|split; [|split]].
  - intros Hq format. apply fieldBody_skips, Hq.
  - intros Hq. split; [|split].
    + rewrite fieldBody_enters by assumption.
      rewrite renderHeading_txt. cbn [bind].
      destruct (bind _ _) as [rest r]. exists rest, r. reflexivity.
    + rewrite fieldBody_md by assumption. eexists. reflexivity.
    + rewrite fieldBody_json by assumption. eexists.
      split; reflexivity.
  - unfold qualifies. rewrite andb_true_iff, Z.eqb_eq. reflexivity.
  - intros packageName root Hroot. split; [|split].
    + apply PrintDoc_md, Hroot.
    + exists (jsonDocument packageName val root).
      split; [apply PrintDoc_json, Hroot|apply jsonDocument_fields].
    + intros o Ho. apply (PrintDoc_txt_returns packageName val root o Hroot Ho).
Qed.

Lemma member_rendered_iff_struct_definition_witness :
  (forall format,
      fieldBody (E := Demo.tty 2) Demo.Root format
        (mkField true "#Tag" Demo.Tag) PackageJSON.zero
      = ([], Ok PackageJSON.zero))
  /\ (exists rest,
        fieldBody (E := Demo.tty 2) Demo.Root "md"
          (mkField true "#Repo" Demo.Repo) PackageJSON.zero
        = (Stdout ("### #Repo" ++ GoString.nl ++ GoString.nl) :: rest,
           Ok PackageJSON.zero))
  /\ PrintDoc (E := Demo.tty 2) "images" Demo.Root "md"
     = (mdHeader (E := Demo.tty 2) "images" Demo.Root
          ++ mdField (E := Demo.tty 2) (mkField true "#Image" Demo.Image)
          ++ mdField (E := Demo.tty 2) (mkField true "#Repo" Demo.Repo),
        Ok tt).
Proof.
  split; [|split].
  - exact (proj1 (@member_rendered_iff_struct_definition _ (Demo.tty 2)
                    Demo.Root (mkField true "#Tag" Demo.Tag)
                    PackageJSON.zero)
             eq_refl).
  - exact (proj1 (proj2 (proj1 (proj2
             (@member_rendered_iff_struct_definition _ (Demo.tty 2) Demo.Root
                (mkField true "#Repo" Demo.Repo) PackageJSON.zero))
             eq_refl))).
  - exact (proj1 (proj2 (proj2 (proj2
             (@member_rendered_iff_struct_definition _ (Demo.tty 2) Demo.Root
                (mkField true "#Repo" Demo.Repo) PackageJSON.zero)))
             "images" (fst (Demo.members Demo.Root)) eq_refl)).
Defined.

(** ** Empty groups *)

(** The two switches on their own.  A field whose inputs are empty: text
    mode prints the line
    "Inputs: none", Markdown mode prints the group heading and the italic
    paragraph "No input.", JSON mode stores the empty (non-nil) slice,
    which encodes as an empty array and not as null.  Likewise for
    outputs, where JSON mode appends the finished record to the
    package. *)
Theorem empty_group_rendering
    {Value : Type} {E : Env Value}
    (name : string) (v : Value) (fj : FieldJSON.t) (pkg : PackageJSON.t) :
  (ScanInputs v = [] ->
     renderInputs "txt" name v fj
     = ([Stdout (GoString.nl ++ textPadding ++ "Inputs: none" ++ GoString.nl)],
        Ok fj)
     /\ renderInputs "md" name v fj
        = ([Stdout ("#### " ++ mdEscape name ++ " Inputs"
                    ++ GoString.nl ++ GoString.nl);
            Stdout ("_No input._" ++ GoString.nl ++ GoString.nl)], Ok fj)
     /\ exists fj',
         renderInputs "json" name v fj = ([], Ok fj')
         /\ FieldJSON.Inputs fj' = Slice []
         /\ In ("Inputs", JArray []) (match json.encodeField fj' with
                                      | JObject members => members
                                      | _ => []
                                      end))
  /\ (ScanOutputs v = [] ->
      renderOutputs "txt" name v fj pkg
      = ([Stdout (GoString.nl ++ textPadding ++ "Outputs: none"
                  ++ GoString.nl)], Ok pkg)
      /\ renderOutputs "md" name v fj pkg
         = ([Stdout ("#### " ++ mdEscape name ++ " Outputs"
                     ++ GoString.nl ++ GoString.nl);
             Stdout ("_No output._" ++ GoString.nl ++ GoString.nl)], Ok pkg)
      /\ exists fj',
          renderOutputs "json" name v fj pkg
          = ([], Ok (PackageJSON.setFields pkg
                       (append1 (PackageJSON.Fields pkg) fj')))
          /\ FieldJSON.Outputs fj' = Slice []
          /\ In ("Outputs", JArray []) (match json.encodeField fj' with
                                        | JObject members => members
                                        | _ => []
                                        end))
  /\ json.encodeSlice json.encodeValue (Slice []) = JArray []
  /\ json.encodeSlice json.encodeValue nilSlice = JNull.
Proof.
  split; [|split; [|split; reflexivity]].
  - intros Hinp. split; [|split].
    + unfold renderInputs. rewrite Hinp. reflexivity.
    + rewrite renderInputs_md, Hinp. reflexivity.
    + rewrite renderInputs_json, Hinp. eexists. split; [reflexivity|].
      split; [reflexivity|]. cbn. auto.
  - intros Hout. split; [|split].
    + unfold renderOutputs. rewrite Hout. reflexivity.
    + rewrite renderOutputs_md, Hout. reflexivity.
    + rewrite renderOutputs_json, Hout. eexists. split; [reflexivity|].
      split; [reflexivity|]. cbn. auto 6.
Qed.

Lemma empty_group_rendering_witness :
  renderInputs (E := Demo.piped) "txt" "#Repo" Demo.Repo FieldJSON.zero
  = ([Stdout (GoString.nl ++ textPadding ++ "Inputs: none" ++ GoString.nl)],
     Ok FieldJSON.zero)
  /\ renderOutputs (E := Demo.piped) "md" "#Image" Demo.Image FieldJSON.zero
       PackageJSON.zero
     = ([Stdout ("#### " ++ mdEscape "#Image" ++ " Outputs"
                 ++ GoString.nl ++ GoString.nl);
         Stdout ("_No output._" ++ GoString.nl ++ GoString.nl)],
        Ok PackageJSON.zero).
Proof.
  pose proof (@empty_group_rendering _ Demo.piped "#Repo" Demo.Repo
                FieldJSON.zero PackageJSON.zero) as HRepo.
  pose proof (@empty_group_rendering _ Demo.piped "#Image" Demo.Image
                FieldJSON.zero PackageJSON.zero) as HImage.
  split.
  - exact (proj1 (proj1 HRepo eq_refl)).
  - exact (proj1 (proj2 (proj1 (proj2 HImage) eq_refl))).
Defined.

(** ** The "no comment" sentinel *)

(** The heading switch on its own.  A field whose doc string is the
    sentinel "-": Markdown mode
    prints the heading and nothing else, text mode prints the name and
    the sentinel as the description. *)
Theorem sentinel_field_heading
    {Value : Type} {E : Env Value}
    (val : Value) (name : string) (v : Value) (fj : FieldJSON.t) :
  ValueDocString v = "-" ->
  renderHeading val "md" name v fj
  = ([Stdout ("### " ++ name ++ GoString.nl ++ GoString.nl)], Ok fj)
  /\ renderHeading val "txt" name v fj
     = ([Stdout (GoString.nl ++ name ++ GoString.nl ++ GoString.nl
                 ++ textPadding ++ "-" ++ GoString.nl)], Ok fj).
Proof.
  intros Hdoc. split.
  - rewrite renderHeading_md, Hdoc. reflexivity.
  - rewrite renderHeading_txt, Hdoc. reflexivity.
Qed.

Lemma sentinel_field_heading_witness :
  renderHeading (E := Demo.piped) Demo.Root "md" "#Image" Demo.Image
    FieldJSON.zero
  = ([Stdout ("### #Image" ++ GoString.nl ++ GoString.nl)], Ok FieldJSON.zero)
  /\ renderHeading (E := Demo.piped) Demo.Root "txt" "#Image" Demo.Image
       FieldJSON.zero
     = ([Stdout (GoString.nl ++ "#Image" ++ GoString.nl ++ GoString.nl
                 ++ textPadding ++ "-" ++ GoString.nl)], Ok FieldJSON.zero).
Proof.
  exact (@sentinel_field_heading _ Demo.piped Demo.Root "#Image" Demo.Image
           FieldJSON.zero eq_refl).
Defined.

(** ** The Name column of a Markdown table *)

Lemma mdEscape_changes (s : string) :
  noSpecial s = false -> mdEscape s <> s.
Proof.
  intros H Heq. apply escapeEach_len in H.
  rewrite <- mdEscape_escapeEach, Heq in H. lia.
Qed.

(** C10.  A row of a Markdown table holds the label as [formatLabel]
    returns it (the path without the prefix [libName.]), between
    asterisks and not escaped, then the escaped type and the escaped
    description.  So a label with a [|], [<] or [>] in it reaches the
    table as it is, which is not its escaped form. *)
Theorem markdown_name_column_not_escaped
    {Value : Type} {E : Env Value}
    (libName : string) (values : list Value) :
  printValuesMarkdown libName values
  = ([Tabwriter
        (mdTableHead
         ++ GoString.concat
              (map (fun i =>
                      "|*" ++ GoString.TrimPrefix (Path i) (libName ++ ".")
                      ++ "*" ++ GoString.tab
                      ++ "|``" ++ mdEscape (FormatValue i) ++ "``"
                      ++ GoString.tab
                      ++ "|" ++ mdEscape (ValueDocString i) ++ GoString.tab
                      ++ "|" ++ GoString.nl)%string values)
         ++ GoString.nl)], Ok tt)
  /\ forall i, noSpecial (formatLabel libName i) = false ->
               mdEscape (formatLabel libName i) <> formatLabel libName i.
Proof.
  split.
  - rewrite printValuesMarkdown_table. reflexivity.
  - intros i. apply mdEscape_changes.
Qed.

Lemma markdown_name_column_not_escaped_witness :
  formatLabel (E := Demo.piped) "#Image" Demo.ImageArgs = "a|b"
  /\ mdEscape (formatLabel (E := Demo.piped) "#Image" Demo.ImageArgs)
     <> formatLabel (E := Demo.piped) "#Image" Demo.ImageArgs.
Proof.
  split; [reflexivity|].
  exact (proj2 (@markdown_name_column_not_escaped _ Demo.piped "#Image" [])
           Demo.ImageArgs eq_refl).
Defined.

(** ** Format invariance *)

(** C4.  On a terminal two columns wide the text run aborts in the first
    table it prints: the description "ab" of the first input of [#Image]
    does not fit and is too short to cut.  The field [#Repo] is then never
    printed in text mode, while the Markdown and the JSON run render both
    discovered fields. *)
Theorem text_run_aborts_in_first_table :
  map Label (discoverFields (E := Demo.tty 2) (fst (Demo.members Demo.Root)))
  = ["#Image"; "#Repo"]
  /\ PrintDoc (E := Demo.tty 2) "images" Demo.Root "txt"
     = ([Stdout ("Package images" ++ GoString.nl);
         Stdout (GoString.nl ++ "Container images" ++ GoString.nl);
         Stdout (GoString.nl ++ "#Image" ++ GoString.nl ++ GoString.nl
                 ++ textPadding ++ "-" ++ GoString.nl);
         Stdout (GoString.nl ++ textPadding ++ "Inputs:" ++ GoString.nl)],
        Panic "slice bounds out of range")
  /\ PrintDoc (E := Demo.tty 2) "images" Demo.Root "md"
     = (mdHeader (E := Demo.tty 2) "images" Demo.Root
          ++ mdField (E := Demo.tty 2) (mkField true "#Image" Demo.Image)
          ++ mdField (E := Demo.tty 2) (mkField true "#Repo" Demo.Repo),
        Ok tt)
  /\ PrintDoc (E := Demo.tty 2) "images" Demo.Root "json"
     = ([StdoutJSON
           (json.encodePackage
              (PackageJSON.mk "images" "Container images"
                 (Slice
                    [jsonField (E := Demo.tty 2) "Container images"
                       (mkField true "#Image" Demo.Image);
                     jsonField (E := Demo.tty 2) "Container images"
                       (mkField true "#Repo" Demo.Repo)])))],
        Ok tt).
Proof. repeat split. Qed.

(** * Further properties *)

(** ** What terminalTrim returns *)

Lemma trimLoop_fits_target (size : Z) (msg : string) :
  forall r, trimLoop size msg = Ok r -> (utf8.RuneCountInString r <= size)%Z.
Proof.
  funelim (trimLoop size msg); intros r Hr.
  - injection Hr as <-.
    pose proof (Z.gtb_spec (utf8.RuneCountInString msg) size) as Hs.
    rewrite e in Hs. inversion Hs. assumption.
  - apply H, Hr.
  - discriminate.
  - discriminate.
Qed.

Lemma trimLoop_ellipsis_shape (size : Z) :
  forall n q r,
    GoString.len q = n ->
    trimLoop size (q ++ ellipsis) = Ok r ->
    exists k, k <= n /\ r = (substring 0 k q ++ ellipsis)%string.
Proof.
  induction n as [|n IH]; intros q r Hlen Hr;
    rewrite trimLoop_step in Hr;
    destruct (utf8.RuneCountInString (q ++ ellipsis) >? size)%Z.
  - apply len_zero in Hlen. subst q. discriminate.
  - injection Hr as <-. exists 0. apply len_zero in Hlen. subst q.
    split; [lia|reflexivity].
  - unfold sliceTo in Hr. rewrite append_len, Hlen in Hr.
    change (GoString.len ellipsis) with 3 in Hr.
    destruct (_ || _)%Z eqn:Hb in Hr; [discriminate|].
    replace (Z.to_nat (Z.of_nat (S n + 3) - 4)) with n in Hr by lia.
    rewrite substring_app_l in Hr by lia.
    apply IH in Hr; [|apply substring_len; lia].
    destruct Hr as (k & Hk & ->). exists k. split; [lia|].
    rewrite substring_substring by lia. reflexivity.
  - injection Hr as <-. exists (S n). split; [lia|].
    rewrite <- Hlen, substring_all. reflexivity.
Qed.

Lemma trimLoop_shape (size : Z) (msg r : string) :
  trimLoop size msg = Ok r ->
  r = msg
  \/ (4 <= GoString.len msg
      /\ exists k, k <= GoString.len msg - 4
                   /\ r = (substring 0 k msg ++ ellipsis)%string).
Proof.
  intros Hr. rewrite trimLoop_step in Hr.
  destruct (utf8.RuneCountInString msg >? size)%Z.
  - right. destruct (sliceTo msg _) as [p|m e|m] eqn:Hs; try discriminate.
    apply sliceTo_Ok in Hs. destruct Hs as [Hlen ->]. split; [assumption|].
    apply (trimLoop_ellipsis_shape size (GoString.len msg - 4)) in Hr;
      [|apply substring_len; lia].
    destruct Hr as (k & Hk & ->). exists k. split; [assumption|].
    rewrite substring_substring by lia. reflexivity.
  - left. injection Hr as <-. reflexivity.
Qed.

(** X1.  Whenever [terminalTrim] returns on a detected terminal, the
    result has at most half the width in runes; it is the message itself,
    or a prefix in bytes of the message, at least four bytes shorter,
    followed by the ellipsis; and it is never longer in bytes than the
    message. *)
Theorem terminalTrim_result
    {Value : Type} {E : Env Value} (w h : Z) (msg r : string) :
  GetSize 1 = (w, h, None) ->
  terminalTrim msg = Ok r ->
  (utf8.RuneCountInString r <= Z.quot w 2)%Z
  /\ (r = msg
      \/ (4 <= GoString.len msg
          /\ exists k, k <= GoString.len msg - 4
                       /\ r = (substring 0 k msg ++ ellipsis)%string))
  /\ GoString.len r <= GoString.len msg.
Proof.
  intros Hsize Hr. rewrite (terminalTrim_detected w h msg Hsize) in Hr.
  pose proof (trimLoop_shape _ _ _ Hr) as Hshape.
  split; [exact (trimLoop_fits_target _ _ r Hr)|]. split; [exact Hshape|].
  destruct Hshape as [->|(Hlen & k & Hk & ->)]; [apply le_n|].
  rewrite append_len, substring_len by lia.
  change (GoString.len ellipsis) with 3. lia.
Qed.

Lemma terminalTrim_result_witness :
  (utf8.RuneCountInString "Arguments…" <= Z.quot 20 2)%Z
  /\ ("Arguments…" = "Arguments <for> the build"
      \/ (4 <= GoString.len "Arguments <for> the build"
          /\ exists k,
               k <= GoString.len "Arguments <for> the build" - 4
               /\ "Arguments…"
                  = (substring 0 k "Arguments <for> the build"
                     ++ ellipsis)%string))
  /\ GoString.len "Arguments…" <= GoString.len "Arguments <for> the build".
Proof.
  exact (@terminalTrim_result _ (Demo.tty 20) 20%Z 24%Z
           "Arguments <for> the build" "Arguments…" eq_refl eq_refl).
Defined.

(** X2.  [terminalTrim] aborts exactly when a width is detected, the
    message has more runes than half the width, and the message has fewer
    than four bytes or half the width is below one.  It never ends in a
    fatal exit.  Without a terminal it returns the message as it is. *)
Theorem terminalTrim_aborts_exactly_when
    {Value : Type} {E : Env Value} (msg : string) :
  (forall m,
      terminalTrim msg = Panic m <->
      m = "slice bounds out of range"
      /\ snd (GetSize 1) = None
      /\ (utf8.RuneCountInString msg > Z.quot (fst (fst (GetSize 1))) 2)%Z
      /\ (GoString.len msg < 4 \/ (Z.quot (fst (fst (GetSize 1))) 2 < 1)%Z))
  /\ (forall m e, terminalTrim msg <> Fatal m e)
  /\ (snd (GetSize 1) <> None -> terminalTrim msg = Ok msg).
Proof.
  split; [|split].
  - intros m. destruct (GetSize 1) as [[w h] [err|]] eqn:Hsize; cbn [fst snd].
    + rewrite (terminalTrim_no_terminal w h err msg Hsize).
      split; [discriminate|]. intros (_ & H & _). discriminate.
    + rewrite (terminalTrim_panics_iff w h msg m Hsize). tauto.
  - intros m e. apply terminalTrim_not_Fatal.
  - destruct (GetSize 1) as [[w h] [err|]] eqn:Hsize; cbn [snd].
    + intros _. apply (terminalTrim_no_terminal w h err msg Hsize).
    + congruence.
Qed.

Lemma terminalTrim_aborts_exactly_when_witness :
  terminalTrim (E := Demo.piped) "ab" = Ok "ab".
Proof.
  apply (proj2 (proj2 (@terminalTrim_aborts_exactly_when _ Demo.piped "ab"))).
  discriminate.
Defined.

(** X3.  [terminalTrim] returns on every message exactly on the terminals
    that are wide enough: no terminal at all, or six columns or more.  On
    every narrower terminal the message ["abc"] aborts it. *)
Theorem terminalTrim_total_iff_wide
    {Value : Type} {E : Env Value} :
  ((forall msg, exists r, terminalTrim msg = Ok r) <-> wideEnough)
  /\ (~ wideEnough ->
      terminalTrim "abc" = Panic "slice bounds out of range").
Proof.
  assert (Hnarrow : ~ wideEnough ->
                    terminalTrim "abc" = Panic "slice bounds out of range").
  { unfold wideEnough. intros Hn.
    destruct (GetSize 1) as [[w h] [err|]] eqn:Hsize; cbn [fst snd] in Hn.
    - exfalso. apply Hn. left. discriminate.
    - rewrite (terminalTrim_detected w h "abc" Hsize).
      assert (Hw : (w <= 5)%Z) by (destruct (Z_le_gt_dec w 5); [assumption|];
                                   exfalso; apply Hn; right; lia).
      assert (Hq : (Z.quot w 2 <= 2)%Z).
      { change 2%Z with (Z.quot 5 2) at 2. apply Z.quot_le_mono; lia. }
      apply trimLoop_panics.
      + change (utf8.RuneCountInString "abc") with 3%Z. lia.
      + left. cbn. lia. }
  split; [|exact Hnarrow]. split.
  - intros Htotal.
    assert (Hdec : wideEnough \/ ~ wideEnough).
    { unfold wideEnough.
      destruct (GetSize 1) as [[w h] [err|]]; cbn [fst snd].
      - left. left. discriminate.
      - destruct (Z_le_gt_dec 6 w); [left; right; assumption|].
        right. intros [H|H]; [congruence|lia]. }
    destruct Hdec as [Hw|Hn]; [assumption|].
    destruct (Htotal "abc") as [r Hr]. rewrite (Hnarrow Hn) in Hr.
    discriminate.
  - intros Hw msg. apply terminalTrim_returns, Hw.
Qed.

Lemma terminalTrim_total_iff_wide_witness :
  terminalTrim (E := Demo.tty 5) "abc" = Panic "slice bounds out of range".
Proof.
  apply (proj2 (@terminalTrim_total_iff_wide _ (Demo.tty 5))).
  intros [H|H]; [apply H; reflexivity|cbn in H; lia].
Defined.

(** X4.  On a terminal of two columns or more, an ASCII message of four
    bytes or more that does not fit comes back as its first [k]
    characters followed by the ellipsis, where [k] is the smaller of the
    length less four and half the width less one. *)
Theorem terminalTrim_ascii_prefix
    {Value : Type} {E : Env Value} (w h : Z) (msg : string) :
  GetSize 1 = (w, h, None) ->
  (1 <= Z.quot w 2)%Z ->
  utf8.isASCII msg = true ->
  4 <= GoString.len msg ->
  (Z.of_nat (GoString.len msg) > Z.quot w 2)%Z ->
  let k := Nat.min (GoString.len msg - 4) (Z.to_nat (Z.quot w 2 - 1)) in
  terminalTrim msg = Ok (substring 0 k msg ++ ellipsis)%string
  /\ utf8.runePrefix k msg = substring 0 k msg
  /\ utf8.RuneCountInString (substring 0 k msg ++ ellipsis)
     = (Z.of_nat k + 1)%Z.
Proof.
  intros Hsize Hw Hmsg Hlen Hbig k.
  rewrite (terminalTrim_detected w h msg Hsize).
  assert (Hcount : (utf8.RuneCountInString msg > Z.quot w 2)%Z)
    by (rewrite RuneCount_ascii by assumption; exact Hbig).
  destruct (trimLoop_ascii (Z.quot w 2) msg Hw Hmsg Hlen Hcount) as [Hres _].
  split; [exact Hres|]. split; [apply runePrefix_ascii, Hmsg|].
  rewrite RuneCount_ascii_ellipsis by (apply isASCII_substring, Hmsg).
  rewrite substring_len by (subst k; lia). reflexivity.
Qed.

Lemma terminalTrim_ascii_prefix_witness :
  terminalTrim (E := Demo.tty 20) "Arguments <for> the build"
  = Ok "Arguments…".
Proof.
  exact (proj1 (@terminalTrim_ascii_prefix _ (Demo.tty 20) 20%Z 24%Z
                  "Arguments <for> the build" eq_refl
                  ltac:(vm_compute; discriminate) eq_refl
                  ltac:(vm_compute; lia)
                  ltac:(vm_compute; reflexivity))).
Defined.

(** ** More on the Markdown escaper *)

Lemma escapeEach_app (s t : string) :
  escapeEach (s ++ t) = (escapeEach s ++ escapeEach t)%string.
Proof.
  induction s as [|c s IH]; [reflexivity|].
  cbn [append escapeEach]. rewrite IH, append_assoc. reflexivity.
Qed.

Lemma backslash_not_special : isSpecial "\" = false.
Proof. reflexivity. Qed.

Lemma special_not_backslash (c : ascii) :
  isSpecial c = true -> (c =? "\")%char = false.
Proof.
  intros H. destruct (Ascii.eqb_spec c "\") as [->|_]; [discriminate|].
  reflexivity.
Qed.

Lemma escapeEach_head (t : string) :
  match escapeEach t with
  | EmptyString => t = EmptyString
  | String c _ => isSpecial c = false
  end.
Proof.
  destruct t as [|d t]; [reflexivity|].
  cbn [escapeEach]. unfold escapeChar.
  destruct (isSpecial d) eqn:Hd; cbn [append]; [reflexivity|assumption].
Qed.

Lemma escapeEach_injective (s : string) :
  forall t, escapeEach s = escapeEach t -> s = t.
Proof.
  induction s as [|c s IH]; intros t H.
  - pose proof (escapeEach_head t) as Ht. rewrite <- H in Ht.
    symmetry. exact Ht.
  - destruct t as [|d t].
    + pose proof (escapeEach_head (String c s)) as Hs. rewrite H in Hs.
      exact Hs.
    + cbn [escapeEach] in H. unfold escapeChar in H.
      destruct (isSpecial c) eqn:Hc, (isSpecial d) eqn:Hd; cbn [append] in H.
      * injection H as <- H. f_equal. apply IH, H.
      * injection H as <- H. pose proof (escapeEach_head t) as Ht.
        rewrite <- H in Ht. congruence.
      * injection H as -> H. pose proof (escapeEach_head s) as Hs.
        rewrite H in Hs. congruence.
      * injection H as <- H. f_equal. apply IH, H.
Qed.

Lemma escapeEach_guarded (s : string) :
  forall b, guardedFrom b (escapeEach s) = true.
Proof.
  induction s as [|c s IH]; intros b; [reflexivity|].
  cbn [escapeEach]. unfold escapeChar.
  destruct (isSpecial c) eqn:Hc; cbn [append guardedFrom].
  - rewrite backslash_not_special, Hc, Ascii.eqb_refl.
    rewrite special_not_backslash by assumption. cbn. apply IH.
  - rewrite Hc. cbn. apply IH.
Qed.

Lemma escapeEach_len_exact (s : string) :
  GoString.len (escapeEach s) = GoString.len s + countSpecial s.
Proof.
  induction s as [|c s IH]; [reflexivity|].
  cbn [escapeEach countSpecial]. rewrite append_len, IH. unfold escapeChar.
  destruct (isSpecial c); unfold GoString.len; cbn; lia.
Qed.

(** X5.  Escaping goes through concatenation: the escape of [s ++ t] is
    the escape of [s] followed by the escape of [t].  So escaping the
    parts of a text and joining them is escaping the whole. *)
Theorem mdEscape_app (s t : string) :
  mdEscape (s ++ t) = (mdEscape s ++ mdEscape t)%string.
Proof. rewrite !mdEscape_escapeEach. apply escapeEach_app. Qed.

(** X6.  Escaping loses nothing: two strings with the same escape are the
    same string. *)
Theorem mdEscape_injective (s t : string) :
  mdEscape s = mdEscape t -> s = t.
Proof. rewrite !mdEscape_escapeEach. apply escapeEach_injective. Qed.

Lemma mdEscape_injective_witness : "a\|b" = "a\|b".
Proof. exact (mdEscape_injective "a\|b" "a\|b" eq_refl). Defined.

(** X7.  In an escaped string every [|], [<] and [>] comes right after a
    backslash, and the string is longer than the original by the number
    of such characters exactly (a backslash of the original is not itself
    escaped).  Escaping twice therefore adds the same number again. *)
Theorem mdEscape_guards_every_special (s : string) :
  guarded (mdEscape s) = true
  /\ GoString.len (mdEscape s) = GoString.len s + countSpecial s
  /\ countSpecial (mdEscape s) = countSpecial s.
Proof.
  rewrite mdEscape_escapeEach. split; [apply escapeEach_guarded|].
  split; [apply escapeEach_len_exact|].
  induction s as [|c s IH]; [reflexivity|].
  cbn [escapeEach countSpecial]. unfold escapeChar.
  destruct (isSpecial c) eqn:Hc; cbn [append countSpecial];
    rewrite ?backslash_not_special, Hc, IH; reflexivity.
Qed.

(** ** Labels *)

Lemma prefix_split (p : string) :
  forall s, prefix p s = true ->
            s = (p ++ substring (GoString.len p)
                        (GoString.len s - GoString.len p) s)%string.
Proof.
  unfold GoString.len.
  induction p as [|a p IH]; intros s H.
  - cbn [String.length append]. rewrite Nat.sub_0_r.
    symmetry. apply (substring_all s).
  - destruct s as [|b s]; [discriminate|].
    cbn [prefix] in H. destruct (ascii_dec a b) as [->|]; [|discriminate].
    cbn [String.length append substring Nat.sub]. f_equal. apply IH, H.
Qed.

Lemma prefix_app (p s : string) : prefix p (p ++ s) = true.
Proof.
  induction p as [|a p IH]; [destruct s; reflexivity|].
  cbn [append prefix]. destruct (ascii_dec a a); [exact IH|contradiction].
Qed.

Lemma append_cancel_l (p s t : string) :
  (p ++ s)%string = (p ++ t)%string -> s = t.
Proof.
  induction p as [|a p IH]; [trivial|].
  cbn [append]. intros H. injection H as H. apply IH, H.
Qed.

(** X8.  The label of a value is its path without one leading
    [libName.]: if the path starts with [libName.], the label is what
    follows (only the first such prefix is taken off); otherwise the
    label is the whole path.  Either way the path ends with the label. *)
Theorem formatLabel_strips_one_prefix
    {Value : Type} {E : Env Value} (libName : string) (v : Value) :
  (forall rest, Path v = (libName ++ "." ++ rest)%string ->
                formatLabel libName v = rest)
  /\ (GoString.HasPrefix (Path v) (libName ++ ".") = false ->
      formatLabel libName v = Path v)
  /\ (Path v = ((libName ++ ".") ++ formatLabel libName v)%string
      \/ Path v = formatLabel libName v).
Proof.
  unfold formatLabel, GoString.TrimPrefix, GoString.HasPrefix.
  split; [|split].
  - intros rest Hpath.
    assert (Hp : Path v = ((libName ++ ".") ++ rest)%string)
      by (rewrite Hpath, append_assoc; reflexivity).
    rewrite Hp, prefix_app.
    pose proof (prefix_split _ _ (prefix_app (libName ++ ".") rest)) as Hs.
    apply append_cancel_l in Hs. symmetry. exact Hs.
  - intros ->. reflexivity.
  - destruct (prefix (libName ++ ".") (Path v)) eqn:Hp.
    + left. apply prefix_split, Hp.
    + right. reflexivity.
Qed.

Lemma formatLabel_strips_one_prefix_witness :
  formatLabel (E := Demo.piped) "#Image" Demo.ImageFrom = "from"
  /\ formatLabel (E := Demo.piped) "#Repo" Demo.ImageFrom = "#Image.from".
Proof.
  split.
  - exact (proj1 (@formatLabel_strips_one_prefix _ Demo.piped "#Image"
                    Demo.ImageFrom) "from" eq_refl).
  - exact (proj1 (proj2 (@formatLabel_strips_one_prefix _ Demo.piped "#Repo"
                           Demo.ImageFrom)) eq_refl).
Defined.

(** ** The table printers, further *)

(** X9.  [valuesToJSON] gives a slice that is never nil, with one record
    per value, in the order of the values; a record holds the label, the
    type and the doc string of its value, none of them escaped or
    trimmed. *)
Theorem valuesToJSON_one_record_per_value
    {Value : Type} {E : Env Value} (libName : string) (values : list Value) :
  valuesToJSON libName values
  = Slice (map (fun i => ValueJSON.mk (formatLabel libName i)
                           (FormatValue i) (ValueDocString i)) values)
  /\ valuesToJSON libName values <> nilSlice
  /\ List.length (elements (valuesToJSON libName values))
     = List.length values.
Proof.
  rewrite valuesToJSON_summaries. unfold summaries.
  split; [reflexivity|]. split; [discriminate|].
  cbn [elements]. apply length_map.
Qed.

(** X10.  In text mode a table is always headed "Inputs:", also when it
    lists outputs: the first thing [printValuesText] prints is that line,
    whatever happens next, and a field with outputs prints it where its
    outputs begin. *)
Theorem text_table_heading_is_Inputs
    {Value : Type} {E : Env Value}
    (name : string) (v : Value) (fj : FieldJSON.t) (pkg : PackageJSON.t) :
  (forall libName values,
      exists rest r,
        printValuesText libName values
        = (Stdout (GoString.nl ++ textPadding ++ "Inputs:" ++ GoString.nl)
             :: rest, r))
  /\ (ScanOutputs v <> [] ->
      exists rest r,
        renderOutputs "txt" name v fj pkg
        = (Stdout (GoString.nl ++ textPadding ++ "Inputs:" ++ GoString.nl)
             :: rest, r)).
Proof.
  assert (Hp : forall libName values,
             exists rest r,
               printValuesText libName values
               = (Stdout (GoString.nl ++ textPadding ++ "Inputs:"
                          ++ GoString.nl) :: rest, r)).
  { intros libName values. unfold printValuesText. cbn [bind print].
    destruct (bind _ _) as [rest r]. exists rest, r. reflexivity. }
  split; [exact Hp|].
  intros Hout. unfold renderOutputs. pick_format.
  destruct (ScanOutputs v) as [|o out]; [contradiction|].
  cbn [List.length Nat.eqb].
  destruct (Hp name (o :: out)) as (rest & r & ->).
  cbn [bind]. destruct r as [[]|m e|m]; eexists; eexists; reflexivity.
Qed.

Lemma text_table_heading_is_Inputs_witness :
  exists rest r,
    renderOutputs (E := Demo.piped) "txt" "#Repo" Demo.Repo FieldJSON.zero
      PackageJSON.zero
    = (Stdout (GoString.nl ++ textPadding ++ "Inputs:" ++ GoString.nl)
         :: rest, r).
Proof.
  apply (proj2 (@text_table_heading_is_Inputs _ Demo.piped "#Repo" Demo.Repo
                  FieldJSON.zero PackageJSON.zero)).
  discriminate.
Defined.

(** X11.  Without a terminal the text table holds every description in
    full: [printValuesText] returns, and each row is the label, the type
    and the whole doc string between tabs. *)
Theorem text_table_untrimmed_without_terminal
    {Value : Type} {E : Env Value} (libName : string) (values : list Value) :
  snd (GetSize 1) <> None ->
  printValuesText libName values
  = ([Stdout (GoString.nl ++ textPadding ++ "Inputs:" ++ GoString.nl);
      Tabwriter
        (GoString.concat
           (map (fun i =>
                   GoString.tab ++ GoString.tab ++ formatLabel libName i
                   ++ GoString.tab ++ FormatValue i ++ GoString.tab
                   ++ ValueDocString i ++ GoString.nl)%string values))],
     Ok tt).
Proof.
  intros Hno. rewrite printValuesText_table by (left; exact Hno).
  do 3 f_equal. f_equal. f_equal. apply map_ext. intros i.
  unfold textRow, trimmed.
  destruct (GetSize 1) as [[w h] [err|]] eqn:Hsize; [|cbn in Hno; congruence].
  rewrite (terminalTrim_no_terminal w h err _ Hsize). reflexivity.
Qed.

Lemma text_table_untrimmed_without_terminal_witness :
  printValuesText (E := Demo.piped) "#Repo" [Demo.RepoURL]
  = ([Stdout (GoString.nl ++ textPadding ++ "Inputs:" ++ GoString.nl);
      Tabwriter (GoString.tab ++ GoString.tab ++ "url" ++ GoString.tab
                 ++ "string" ++ GoString.tab ++ "-" ++ GoString.nl)],
     Ok tt).
Proof.
  apply (@text_table_untrimmed_without_terminal _ Demo.piped "#Repo"
           [Demo.RepoURL]).
  discriminate.
Defined.

(** ** Whole runs *)

Lemma bind_ret_l {A B : Type} (a : A) (k : A -> M B) : bind (ret a) k = k a.
Proof. unfold ret. cbn [bind]. destruct (k a). reflexivity. Qed.

Lemma bind_ext {A B : Type} (m : M A) (k k' : A -> M B) :
  (forall a, k a = k' a) -> bind m k = bind m k'.
Proof.
  intros H. destruct m as [o [a|msg err|msg]]; cbn [bind];
    [rewrite H|..]; reflexivity.
Qed.

Lemma neverFatal_Ok {A : Type} (o : list Out) (a : A) : neverFatal (o, Ok a).
Proof. intros msg err. discriminate. Qed.

Lemma neverFatal_bind {A B : Type} (m : M A) (k : A -> M B) :
  neverFatal m -> (forall a, neverFatal (k a)) -> neverFatal (bind m k).
Proof.
  intros Hm Hk msg err. destruct m as [o [a|msg' err'|msg']]; cbn [bind].
  - specialize (Hk a msg err). destruct (k a) as [o' r]. exact Hk.
  - exfalso. exact (Hm msg' err' eq_refl).
  - discriminate.
Qed.

Lemma neverFatal_forRange {A S : Type} (body : A -> S -> M S) (l : list A) :
  (forall x s, neverFatal (body x s)) ->
  forall s, neverFatal (forRange l body s).
Proof.
  intros Hbody. induction l as [|x l IH]; intros s; cbn [forRange].
  - apply neverFatal_Ok.
  - apply neverFatal_bind; [apply Hbody|exact IH].
Qed.

Lemma wideEnough_dec {Value : Type} {E : Env Value} :
  wideEnough \/ ~ wideEnough.
Proof.
  unfold wideEnough.
  destruct (GetSize 1) as [[w h] [err|]]; cbn [fst snd].
  - left. left. discriminate.
  - destruct (Z_le_gt_dec 6 w); [left; right; assumption|].
    right. intros [H|H]; [congruence|lia].
Qed.

Section Runs.

Context {Value : Type} `{E : Env Value}.

Lemma printValuesText_neverFatal (libName : string) (values : list Value) :
  neverFatal (printValuesText libName values).
Proof.
  unfold printValuesText.
  apply neverFatal_bind; [apply neverFatal_Ok|]. intros _.
  apply neverFatal_bind; [|intros w; apply neverFatal_Ok].
  apply neverFatal_forRange. intros i w.
  apply neverFatal_bind; [|intros r; apply neverFatal_Ok].
  intros msg err. unfold abandoning, lift.
  destruct (terminalTrim (ValueDocString i)) as [r|m e|m] eqn:Ht;
    cbn [snd]; try discriminate.
  exfalso. exact (terminalTrim_not_Fatal _ m e Ht).
Qed.

Lemma fieldBody_txt_neverFatal (val : Value) (f : Field Value)
    (pkg : PackageJSON.t) :
  neverFatal (fieldBody val "txt" f pkg).
Proof.
  destruct (qualifies f) eqn:Hq.
  - rewrite fieldBody_enters by assumption. rewrite renderHeading_txt.
    apply neverFatal_bind; [apply neverFatal_Ok|]. intros fj.
    unfold renderInputs, renderOutputs. pick_format.
    apply neverFatal_bind.
    + apply neverFatal_bind; [|intros; apply neverFatal_Ok].
      destruct (_ =? _)%nat;
        [apply neverFatal_Ok|apply printValuesText_neverFatal].
    + intros fj'. apply neverFatal_bind; [|intros; apply neverFatal_Ok].
      destruct (_ =? _)%nat;
        [apply neverFatal_Ok|apply printValuesText_neverFatal].
  - rewrite fieldBody_skips by assumption. apply neverFatal_Ok.
Qed.

Lemma fieldBody_other (val : Value) (format : string) (f : Field Value)
    (pkg : PackageJSON.t) :
  knownFormat format = false ->
  fieldBody val format f pkg = ([], Ok pkg).
Proof.
  unfold knownFormat. intros H.
  apply orb_false_iff in H. destruct H as [H H3].
  apply orb_false_iff in H. destruct H as [H1 H2].
  destruct (qualifies f) eqn:Hq; [|apply fieldBody_skips, Hq].
  rewrite fieldBody_enters by assumption.
  unfold renderHeading, renderInputs, renderOutputs.
  rewrite H1, H2, H3. reflexivity.
Qed.

Lemma PrintDoc_other (packageName : string) (val : Value) (format : string)
    (root : list (Field Value)) :
  knownFormat format = false ->
  Fields val = (root, None) ->
  PrintDoc packageName val format = ([], Ok tt).
Proof.
  intros Hk Hroot. unfold PrintDoc. rewrite Hroot.
  pose proof Hk as Hk'. unfold knownFormat in Hk'.
  apply orb_false_iff in Hk'. destruct Hk' as [Hk' H3].
  apply orb_false_iff in Hk'. destruct Hk' as [H1 H2].
  rewrite H1, H2, H3. rewrite bind_ret_l.
  rewrite (forRange_output _ (fun _ => [])) by
    (intros f s; apply fieldBody_other, Hk).
  assert (Hnil : forall l : list (Field Value),
             flat_map (fun _ : Field Value => @nil Out) l = [])
    by (intros l; induction l as [|f r IH]; [reflexivity|exact IH]).
  rewrite Hnil. reflexivity.
Qed.

Lemma knownFormat_cases (format : string) :
  format = "txt" \/ format = "md" \/ format = "json"
  \/ knownFormat format = false.
Proof.
  unfold knownFormat, textFormat, markdownFormat, jsonFormat.
  destruct (String.eqb_spec format "txt"); [auto|].
  destruct (String.eqb_spec format "md"); [auto|].
  destruct (String.eqb_spec format "json"); auto.
Qed.

Lemma PrintDoc_neverFatal (packageName : string) (val : Value)
    (format : string) (root : list (Field Value)) :
  Fields val = (root, None) ->
  neverFatal (PrintDoc packageName val format).
Proof.
  intros Hroot.
  destruct (knownFormat_cases format) as [->|[->|[->|Hk]]].
  - unfold PrintDoc. rewrite Hroot. pick_format.
    apply neverFatal_bind; [apply neverFatal_Ok|]. intros p.
    apply neverFatal_bind; [|intros; apply neverFatal_Ok].
    apply neverFatal_forRange. intros f s. apply fieldBody_txt_neverFatal.
  - rewrite (PrintDoc_md packageName val root Hroot). apply neverFatal_Ok.
  - rewrite (PrintDoc_json packageName val root Hroot). apply neverFatal_Ok.
  - rewrite (PrintDoc_other packageName val format root Hk Hroot).
    apply neverFatal_Ok.
Qed.

Lemma PrintDoc_Fatal_inv (packageName : string) (val : Value)
    (format : string) (msg : string) (err : error) :
  snd (PrintDoc packageName val format) = Fatal msg err ->
  fst (PrintDoc packageName val format) = []
  /\ msg = "cannot get fields"
  /\ snd (Fields val) = Some err.
Proof.
  destruct (Fields val) as [root [err'|]] eqn:Hroot.
  - rewrite (PrintDoc_fatal packageName val format root err' Hroot).
    cbn [fst snd]. intros H. injection H as <- <-. auto.
  - intros H. exfalso.
    exact (PrintDoc_neverFatal packageName val format root Hroot msg err H).
Qed.

Lemma PrintDoc_Panic_inv (packageName : string) (val : Value)
    (format : string) (msg : string) :
  snd (PrintDoc packageName val format) = Panic msg ->
  format = "txt" /\ ~ wideEnough /\ snd (Fields val) = None.
Proof.
  destruct (Fields val) as [root [err'|]] eqn:Hroot.
  - rewrite (PrintDoc_fatal packageName val format root err' Hroot).
    discriminate.
  - destruct (knownFormat_cases format) as [->|[->|[->|Hk]]].
    + intros H. split; [reflexivity|]. split; [|reflexivity].
      intros Hw. rewrite (PrintDoc_txt packageName val root Hw Hroot) in H.
      discriminate.
    + rewrite (PrintDoc_md packageName val root Hroot). discriminate.
    + rewrite (PrintDoc_json packageName val root Hroot). discriminate.
    + rewrite (PrintDoc_other packageName val format root Hk Hroot).
      discriminate.
Qed.

Lemma fields_only_discovered (val : Value) (format : string)
    (root : list (Field Value)) :
  forall pkg,
    forRange root (fieldBody val format) pkg
    = forRange (discoverFields root) (fieldBody val format) pkg.
Proof.
  induction root as [|f root IH]; intros pkg; [reflexivity|].
  cbn [discoverFields filter forRange].
  destruct (qualifies f) eqn:Hq.
  - cbn [forRange]. apply bind_ext. exact IH.
  - rewrite fieldBody_skips by assumption.
    change (@pair (list Out) (Res PackageJSON.t) [] (Ok pkg)) with (ret pkg).
    rewrite bind_ret_l. apply IH.
Qed.

End Runs.

(** X12.  On a terminal that is wide enough (none, or six columns or
    more) the text run returns and prints the text document: the header
    and one block per discovered field, in order; every description in a
    table is what [terminalTrim] makes of it, which on a detected
    terminal has at most half the width in runes. *)
Theorem PrintDoc_text_on_wide_terminal
    {Value : Type} {E : Env Value}
    (packageName : string) (val : Value) (root : list (Field Value)) :
  wideEnough ->
  Fields val = (root, None) ->
  PrintDoc packageName val "txt"
  = (textHeader packageName val
       ++ flat_map textField (filter qualifies root), Ok tt)
  /\ (forall msg, terminalTrim msg = Ok (trimmed msg))
  /\ (forall w h msg,
        GetSize 1 = (w, h, None) ->
        (utf8.RuneCountInString (trimmed msg) <= Z.quot w 2)%Z).
Proof.
  intros Hw Hroot. split; [apply PrintDoc_txt; assumption|].
  split; [intros msg; apply terminalTrim_trimmed, Hw|].
  intros w h msg Hsize.
  pose proof (terminalTrim_trimmed msg Hw) as Hr.
  rewrite (terminalTrim_detected w h msg Hsize) in Hr.
  exact (trimLoop_fits_target _ _ _ Hr).
Qed.

Lemma PrintDoc_text_on_wide_terminal_witness :
  PrintDoc (E := Demo.tty 20) "images" Demo.Root "txt"
  = (textHeader (E := Demo.tty 20) "images" Demo.Root
       ++ textField (E := Demo.tty 20) (mkField true "#Image" Demo.Image)
       ++ textField (E := Demo.tty 20) (mkField true "#Repo" Demo.Repo),
     Ok tt).
Proof.
  refine (proj1 (@PrintDoc_text_on_wide_terminal _ (Demo.tty 20) "images"
                   Demo.Root (fst (Demo.members Demo.Root)) _ eq_refl)).
  right. vm_compute. discriminate.
Defined.

(** X13.  A fatal exit of [PrintDoc] comes from listing the fields and
    from nothing else: the run ends in a fatal exit exactly when the
    field listing fails, the entry reads "cannot get fields" with that
    error, and nothing has been printed before it, in any format. *)
Theorem PrintDoc_fatal_only_from_fields
    {Value : Type} {E : Env Value}
    (packageName : string) (val : Value) (format : string) :
  (forall msg err,
      snd (PrintDoc packageName val format) = Fatal msg err <->
      msg = "cannot get fields" /\ snd (Fields val) = Some err)
  /\ (forall msg err,
        snd (PrintDoc packageName val format) = Fatal msg err ->
        fst (PrintDoc packageName val format) = []).
Proof.
  split.
  - intros msg err. split.
    + intros H. apply PrintDoc_Fatal_inv in H. tauto.
    + intros [-> Herr]. destruct (Fields val) as [root e] eqn:Hroot.
      cbn [snd] in Herr. subst e.
      rewrite (PrintDoc_fatal packageName val format root err Hroot).
      reflexivity.
  - intros msg err H. apply PrintDoc_Fatal_inv in H. tauto.
Qed.

Lemma PrintDoc_fatal_only_from_fields_witness :
  PrintDoc (E := demoUnlisted) "images" Demo.Root "md"
  = ([], Fatal "cannot get fields" "incomplete value").
Proof.
  pose proof (@PrintDoc_fatal_only_from_fields _ demoUnlisted "images"
                Demo.Root "md") as [Hiff Hnil].
  pose proof (proj2 (Hiff "cannot get fields" "incomplete value")
                (conj eq_refl eq_refl)) as Hf.
  pose proof (Hnil _ _ Hf) as Ho.
  destruct (PrintDoc (E := demoUnlisted) "images" Demo.Root "md") as [o r].
  cbn [fst snd] in *. rewrite Hf, Ho. reflexivity.
Defined.

(** X14.  [PrintDoc] itself does not check the format: for a format that
    is none of [txt], [md] and [json] it prints nothing at all and
    returns, whatever the package holds. *)
Theorem PrintDoc_unknown_format_prints_nothing
    {Value : Type} {E : Env Value}
    (packageName : string) (val : Value) (format : string)
    (root : list (Field Value)) :
  format <> "txt" -> format <> "md" -> format <> "json" ->
  Fields val = (root, None) ->
  PrintDoc packageName val format = ([], Ok tt).
Proof.
  intros H1 H2 H3 Hroot.
  destruct (knownFormat_cases format) as [->|[->|[->|Hk]]];
    try contradiction.
  apply (PrintDoc_other packageName val format root Hk Hroot).
Qed.

Lemma PrintDoc_unknown_format_prints_nothing_witness :
  PrintDoc (E := Demo.piped) "images" Demo.Root "xml" = ([], Ok tt).
Proof.
  apply (@PrintDoc_unknown_format_prints_nothing _ Demo.piped "images"
           Demo.Root "xml" (fst (Demo.members Demo.Root)));
    (discriminate || reflexivity).
Defined.

(** X15.  The JSON document of a package: name, description, and under
    "Fields" one object per discovered field in order.  When no member is
    a definition of struct kind, "Fields" is null and not an empty
    array. *)
Theorem PrintDoc_json_document
    {Value : Type} {E : Env Value}
    (packageName : string) (val : Value) (root : list (Field Value)) :
  Fields val = (root, None) ->
  PrintDoc packageName val "json"
  = ([StdoutJSON
        (JObject
           [("Name", JString packageName);
            ("Description", JString (ValueDocString val));
            ("Fields",
             match filter qualifies root with
             | [] => JNull
             | fs => JArray
                       (map (fun f =>
                               json.encodeField
                                 (FieldJSON.mk (Label f) (ValueDocString val)
                                    (valuesToJSON (Label f)
                                       (ScanInputs (FieldValue f)))
                                    (valuesToJSON (Label f)
                                       (ScanOutputs (FieldValue f))))) fs)
             end)])], Ok tt).
Proof.
  intros Hroot. rewrite (PrintDoc_json packageName val root Hroot).
  unfold jsonDocument, json.encodePackage, discoverFields.
  cbn [PackageJSON.Name PackageJSON.Description PackageJSON.Fields].
  destruct (filter qualifies root) as [|f fs]; [reflexivity|].
  cbn [json.encodeSlice]. rewrite map_map.
  rewrite (map_ext _ (fun f0 =>
             json.encodeField
               (FieldJSON.mk (Label f0) (ValueDocString val)
                  (valuesToJSON (Label f0) (ScanInputs (FieldValue f0)))
                  (valuesToJSON (Label f0) (ScanOutputs (FieldValue f0))))));
    [reflexivity|].
  intros g. unfold jsonField.
  rewrite !valuesToJSON_summaries. reflexivity.
Qed.

Lemma PrintDoc_json_document_witness :
  PrintDoc (E := Demo.piped) "tag" Demo.Tag "json"
  = ([StdoutJSON (JObject [("Name", JString "tag");
                           ("Description", JString "A tag");
                           ("Fields", JNull)])], Ok tt).
Proof.
  exact (@PrintDoc_json_document _ Demo.piped "tag" Demo.Tag [] eq_refl).
Defined.

(** X16.  Markdown and JSON output do not depend on the terminal: the
    same package rendered on any two terminals gives the same run. *)
Theorem markdown_and_json_ignore_terminal
    {Value : Type} (E : Env Value) (tty : Z -> Z * Z * option error)
    (packageName : string) (val : Value) :
  PrintDoc (E := withTerminal E tty) packageName val "md"
  = PrintDoc (E := E) packageName val "md"
  /\ PrintDoc (E := withTerminal E tty) packageName val "json"
     = PrintDoc (E := E) packageName val "json".
Proof.
  destruct (@Fields Value E val) as [root [err|]] eqn:Hroot.
  - rewrite (@PrintDoc_fatal _ E packageName val "md" root err Hroot),
      (@PrintDoc_fatal _ E packageName val "json" root err Hroot),
      (@PrintDoc_fatal _ (withTerminal E tty) packageName val "md" root err
         Hroot),
      (@PrintDoc_fatal _ (withTerminal E tty) packageName val "json" root err
         Hroot).
    split; reflexivity.
  - rewrite (@PrintDoc_md _ E packageName val root Hroot),
      (@PrintDoc_json _ E packageName val root Hroot),
      (@PrintDoc_md _ (withTerminal E tty) packageName val root Hroot),
      (@PrintDoc_json _ (withTerminal E tty) packageName val root Hroot).
    split; reflexivity.
Qed.

(** X17.  Only the text run can abort: if [PrintDoc] panics, the format
    is [txt], the field listing succeeded, and the terminal is a detected
    one of fewer than six columns.  Markdown and JSON runs always return
    once the fields are listed. *)
Theorem PrintDoc_panics_only_in_text
    {Value : Type} {E : Env Value}
    (packageName : string) (val : Value) (format : string) :
  (forall msg,
      snd (PrintDoc packageName val format) = Panic msg ->
      format = "txt"
      /\ snd (Fields val) = None
      /\ snd (GetSize 1) = None
      /\ (fst (fst (GetSize 1)) < 6)%Z)
  /\ (snd (Fields val) = None ->
      snd (PrintDoc packageName val "md") = Ok tt
      /\ snd (PrintDoc packageName val "json") = Ok tt).
Proof.
  split.
  - intros msg H. apply PrintDoc_Panic_inv in H.
    destruct H as (-> & Hn & Hf). split; [reflexivity|].
    split; [assumption|]. unfold wideEnough in Hn.
    destruct (GetSize 1) as [[w h] [err|]]; cbn [fst snd] in *.
    + exfalso. apply Hn. left. discriminate.
    + split; [reflexivity|].
      destruct (Z_lt_le_dec w 6); [assumption|].
      exfalso. apply Hn. right. assumption.
  - intros Hf. destruct (Fields val) as [root e] eqn:Hroot.
    cbn [snd] in Hf. subst e.
    rewrite (PrintDoc_md packageName val root Hroot),
      (PrintDoc_json packageName val root Hroot).
    split; reflexivity.
Qed.

Lemma PrintDoc_panics_only_in_text_witness :
  snd (PrintDoc (E := Demo.tty 2) "images" Demo.Root "md") = Ok tt
  /\ snd (PrintDoc (E := Demo.tty 2) "images" Demo.Root "json") = Ok tt.
Proof.
  exact (proj2 (@PrintDoc_panics_only_in_text _ (Demo.tty 2) "images"
                  Demo.Root "md") eq_refl).
Defined.

(** X18.  Members that are not definitions of struct kind never change a
    run: in every format and on every terminal, also when the run aborts,
    the loop over all members does what the loop over the discovered
    fields alone does. *)
Theorem loop_depends_on_discovered_fields_only
    {Value : Type} {E : Env Value}
    (val : Value) (format : string) (root : list (Field Value))
    (pkg : PackageJSON.t) :
  forRange root (fieldBody val format) pkg
  = forRange (filter qualifies root) (fieldBody val format) pkg.
Proof. apply fields_only_discovered. Qed.

(** ** The command *)

Section RunLemmas.

Context {Value : Type} `{E : Env Value}.

Variable Build : string -> option Value * option error.

Lemma Run_unknown (format : string) (args : list string) :
  knownFormat format = false ->
  Run Build format args
  = ([], Fatal "output must be either `txt`, `md` or `json`" "").
Proof.
  unfold knownFormat, Run. intros H.
  apply orb_false_iff in H. destruct H as [H H3].
  apply orb_false_iff in H. destruct H as [H1 H2].
  rewrite H1, H2, H3. reflexivity.
Qed.

Lemma Run_known (format : string) (args : list string) :
  knownFormat format = true ->
  Run Build format args
  = match args with
    | [] => ([], Panic "index out of range")
    | packageName :: _ =>
        match Build packageName with
        | (_, Some err) => ([], Fatal "cannot compile code" err)
        | (Some val, None) => PrintDoc packageName val format
        | (None, None) =>
            ([], Panic "invalid memory address or nil pointer dereference")
        end
    end.
Proof.
  unfold knownFormat, Run. intros H.
  assert (Hc : negb (format =? textFormat)%string
               && negb (format =? markdownFormat)%string
               && negb (format =? jsonFormat)%string = false).
  { rewrite <- !negb_orb. rewrite H. reflexivity. }
  rewrite Hc, bind_ret_l.
  destruct args as [|a args]; [reflexivity|].
  cbn [firstArg lift bind]. unfold loadCode.
  destruct (Build a) as [[val|] [err|]]; try reflexivity.
  rewrite bind_ret_l. cbn [app].
  destruct (PrintDoc a val format) as [o r]. reflexivity.
Qed.

End RunLemmas.

(** X19.  What the command does.  A format other than [txt], [md] and
    [json] is refused before anything else happens; a package that does
    not compile ends the run with "cannot compile code" and the
    compiler's error; otherwise the run is [PrintDoc] on the compiled
    value.  Whenever the command ends in a fatal exit, nothing has been
    written to standard output. *)
Theorem Run_outcomes
    {Value : Type} {E : Env Value}
    (Build : string -> option Value * option error)
    (format : string) (args : list string) :
  (knownFormat format = false ->
     Run Build format args
     = ([], Fatal "output must be either `txt`, `md` or `json`" ""))
  /\ (knownFormat format = true ->
      forall packageName src err,
        args = [packageName] ->
        Build packageName = (src, Some err) ->
        Run Build format args = ([], Fatal "cannot compile code" err))
  /\ (knownFormat format = true ->
      forall packageName val,
        args = [packageName] ->
        Build packageName = (Some val, None) ->
        Run Build format args = PrintDoc packageName val format)
  /\ (forall msg err,
        snd (Run Build format args) = Fatal msg err ->
        fst (Run Build format args) = []).
Proof.
  split; [apply Run_unknown|]. split; [|split].
  - intros Hk packageName src err -> HB.
    rewrite Run_known, HB by assumption. destruct src; reflexivity.
  - intros Hk packageName val -> HB.
    rewrite Run_known, HB by assumption. reflexivity.
  - intros msg err. destruct (knownFormat format) eqn:Hk.
    + rewrite Run_known by assumption.
      destruct args as [|a args]; [discriminate|].
      destruct (Build a) as [[val|] [e|]]; try reflexivity; try discriminate.
      intros H. apply PrintDoc_Fatal_inv in H. tauto.
    + rewrite Run_unknown by assumption. reflexivity.
Qed.

Lemma Run_outcomes_witness :
  Run (E := Demo.piped) demoBuild "xml" ["images"]
  = ([], Fatal "output must be either `txt`, `md` or `json`" "")
  /\ Run (E := Demo.piped) demoBuild "md" ["alpine"]
     = ([], Fatal "cannot compile code" "cannot find package")
  /\ Run (E := Demo.piped) demoBuild "md" ["images"]
     = PrintDoc (E := Demo.piped) "images" Demo.Root "md".
Proof.
  split; [|split].
  - exact (proj1 (@Run_outcomes _ Demo.piped demoBuild "xml" ["images"])
             eq_refl).
  - exact (proj1 (proj2 (@Run_outcomes _ Demo.piped demoBuild "md"
                           ["alpine"]))
             eq_refl "alpine" None "cannot find package" eq_refl eq_refl).
  - exact (proj1 (proj2 (proj2 (@Run_outcomes _ Demo.piped demoBuild "md"
                                  ["images"])))
             eq_refl "images" Demo.Root eq_refl eq_refl).
Defined.

(** ** What an aborted text run has printed *)






Section AbortedText.

Context {Value : Type} `{E : Env Value}.

Import GoString.








End AbortedText.



(** * Runs that the defect of terminalTrim cuts short

    The out-of-range slice of [terminalTrim] aborts a text run in the
    middle of a table.  What the loop of [PrintDoc] would have printed
    after that point is then missing from the text output, while the
    Markdown and the JSON run of the same package have it. *)

(** C5.  On a terminal two columns wide the member [#Repo] of the demo
    package, a definition of struct kind, is never rendered in text mode:
    the run aborts in the inputs table of [#Image], before the loop
    reaches it.  Markdown mode prints its heading and JSON mode stores its
    record. *)
Theorem struct_definition_missing_from_aborted_text_run :
  In (mkField true "#Repo" Demo.Repo)
     (fst (Fields (Env := Demo.tty 2) Demo.Root))
  /\ qualifies (E := Demo.tty 2) (mkField true "#Repo" Demo.Repo) = true
  /\ PrintDoc (E := Demo.tty 2) "images" Demo.Root "txt"
     = ([Stdout ("Package images" ++ GoString.nl);
         Stdout (GoString.nl ++ "Container images" ++ GoString.nl);
         Stdout (GoString.nl ++ "#Image" ++ GoString.nl ++ GoString.nl
                 ++ textPadding ++ "-" ++ GoString.nl);
         Stdout (GoString.nl ++ textPadding ++ "Inputs:" ++ GoString.nl)],
        Panic "slice bounds out of range")
  /\ ~ In (Stdout (GoString.nl ++ "#Repo" ++ GoString.nl ++ GoString.nl
                   ++ textPadding ++ "A repository" ++ GoString.nl))
          (fst (PrintDoc (E := Demo.tty 2) "images" Demo.Root "txt"))
  /\ snd (PrintDoc (E := Demo.tty 2) "images" Demo.Root "md") = Ok tt
  /\ In (Stdout ("### #Repo" ++ GoString.nl ++ GoString.nl))
        (fst (PrintDoc (E := Demo.tty 2) "images" Demo.Root "md"))
  /\ exists image repo,
       PrintDoc (E := Demo.tty 2) "images" Demo.Root "json"
       = ([StdoutJSON
             (json.encodePackage
                (PackageJSON.mk "images" "Container images"
                   (Slice [image; repo])))], Ok tt)
       /\ FieldJSON.Name repo = "#Repo".
Proof.
  split; [cbn; auto 6|]. split; [reflexivity|]. split; [reflexivity|].
  split.
  - intros H. cbn in H.
    repeat (destruct H as [H|H]; [discriminate|]). exact H.
  - split; [reflexivity|]. split; [cbn; auto 12|].
    eexists. eexists. split; reflexivity.
Qed.

(** C6.  On the same terminal the lines for the empty groups are missing
    from the text output: [#Image] has no outputs and [#Repo] has no
    inputs, but neither "Outputs: none" nor "Inputs: none" is printed,
    because the run aborts in the inputs table of [#Image].  Markdown mode
    prints both italic paragraphs, and JSON mode stores both empty
    slices. *)
Theorem empty_groups_missing_from_aborted_text_run :
  ScanOutputs (Env := Demo.tty 2) Demo.Image = []
  /\ ScanInputs (Env := Demo.tty 2) Demo.Repo = []
  /\ PrintDoc (E := Demo.tty 2) "images" Demo.Root "txt"
     = ([Stdout ("Package images" ++ GoString.nl);
         Stdout (GoString.nl ++ "Container images" ++ GoString.nl);
         Stdout (GoString.nl ++ "#Image" ++ GoString.nl ++ GoString.nl
                 ++ textPadding ++ "-" ++ GoString.nl);
         Stdout (GoString.nl ++ textPadding ++ "Inputs:" ++ GoString.nl)],
        Panic "slice bounds out of range")
  /\ ~ In (Stdout (GoString.nl ++ textPadding ++ "Outputs: none"
                   ++ GoString.nl))
          (fst (PrintDoc (E := Demo.tty 2) "images" Demo.Root "txt"))
  /\ ~ In (Stdout (GoString.nl ++ textPadding ++ "Inputs: none"
                   ++ GoString.nl))
          (fst (PrintDoc (E := Demo.tty 2) "images" Demo.Root "txt"))
  /\ snd (PrintDoc (E := Demo.tty 2) "images" Demo.Root "md") = Ok tt
  /\ In (Stdout ("_No output._" ++ GoString.nl ++ GoString.nl))
        (fst (PrintDoc (E := Demo.tty 2) "images" Demo.Root "md"))
  /\ In (Stdout ("_No input._" ++ GoString.nl ++ GoString.nl))
        (fst (PrintDoc (E := Demo.tty 2) "images" Demo.Root "md"))
  /\ exists image repo,
       PrintDoc (E := Demo.tty 2) "images" Demo.Root "json"
       = ([StdoutJSON
             (json.encodePackage
                (PackageJSON.mk "images" "Container images"
                   (Slice [image; repo])))], Ok tt)
       /\ FieldJSON.Name image = "#Image"
       /\ FieldJSON.Outputs image = Slice []
       /\ FieldJSON.Name repo = "#Repo"
       /\ FieldJSON.Inputs repo = Slice []
       /\ json.encodeSlice json.encodeValue (FieldJSON.Outputs image)
          = JArray [].
Proof.
  split; [reflexivity|]. split; [reflexivity|]. split; [reflexivity|].
  split; [|split].
  - intros H. cbn in H.
    repeat (destruct H as [H|H]; [discriminate|]). exact H.
  - intros H. cbn in H.
    repeat (destruct H as [H|H]; [discriminate|]). exact H.
  - split; [reflexivity|]. split; [cbn; auto 12|]. split; [cbn; auto 12|].
    eexists. eexists. split; [reflexivity|]. repeat split.
Qed.

(** C8.  With the two struct definitions listed the other way round, on a
    terminal that reports no columns: the text run aborts in the outputs
    table of [#Repo] (the description "-" of its one output has a rune
    and the target is none), so the field [#Image], whose doc string is
    the sentinel, is never printed in text mode, neither its name nor the
    sentinel.  Markdown mode prints its heading and no description
    paragraph. *)
Theorem sentinel_field_missing_from_aborted_text_run :
  ValueDocString (Env := demoReordered (Demo.columns 0)) Demo.Image = "-"
  /\ PrintDoc (E := demoReordered (Demo.columns 0)) "images" Demo.Root "txt"
     = ([Stdout ("Package images" ++ GoString.nl);
         Stdout (GoString.nl ++ "Container images" ++ GoString.nl);
         Stdout (GoString.nl ++ "#Repo" ++ GoString.nl ++ GoString.nl
                 ++ textPadding ++ "A repository" ++ GoString.nl);
         Stdout (GoString.nl ++ textPadding ++ "Inputs: none" ++ GoString.nl);
         Stdout (GoString.nl ++ textPadding ++ "Inputs:" ++ GoString.nl)],
        Panic "slice bounds out of range")
  /\ ~ In (Stdout (GoString.nl ++ "#Image" ++ GoString.nl ++ GoString.nl
                   ++ textPadding ++ "-" ++ GoString.nl))
          (fst (PrintDoc (E := demoReordered (Demo.columns 0)) "images"
                  Demo.Root "txt"))
  /\ PrintDoc (E := demoReordered (Demo.columns 0)) "images" Demo.Root "md"
     = (mdHeader (E := demoReordered (Demo.columns 0)) "images" Demo.Root
          ++ mdField (E := demoReordered (Demo.columns 0))
               (mkField true "#Repo" Demo.Repo)
          ++ [Stdout ("### #Image" ++ GoString.nl ++ GoString.nl);
              Stdout ("#### " ++ mdEscape "#Image" ++ " Inputs"
                      ++ GoString.nl ++ GoString.nl);
              mdTable (E := demoReordered (Demo.columns 0)) "#Image"
                [Demo.ImageFrom; Demo.ImageArgs];
              Stdout ("#### " ++ mdEscape "#Image" ++ " Outputs"
                      ++ GoString.nl ++ GoString.nl);
              Stdout ("_No output._" ++ GoString.nl ++ GoString.nl)],
        Ok tt)
  /\ ~ In (Stdout (mdEscape "-" ++ GoString.nl ++ GoString.nl))
          (fst (PrintDoc (E := demoReordered (Demo.columns 0)) "images"
                  Demo.Root "md")).
Proof.
  split; [reflexivity|]. split; [reflexivity|]. split; [|split].
  - intros H. cbn in H.
    repeat (destruct H as [H|H]; [discriminate|]). exact H.
  - reflexivity.
  - intros H. cbn in H.
    repeat (destruct H as [H|H]; [discriminate|]). exact H.
Qed.
